(** * Reminder scheduling and login of the Dhanvantari assistant (src/index.tsx)

    A shallow embedding of the [ProfilePage] component (reminder list, its
    two effects and its two handlers), of [LoginPage.handleSubmit] and of
    [App.handleLogin], together with the slice of the browser they talk to:
    the wall clock, the table of timers, [localStorage] and the
    notification surface ([alert] and speech).

    Conventions of the embedding.
    - A JavaScript string is a [string]; every character stands for one
      code unit below 256.
    - A number is a [Z]; a number that may be [NaN] is an [option Z] with
      [None] for [NaN].  An instant is a number of milliseconds since the
      epoch.
    - Local time is UTC shifted by a fixed offset [tz] (no daylight saving
      change falls between two instants that are compared).
    - An event handler or effect runs to completion at one reading of the
      clock. *)

From Stdlib Require Import ZArith Lia Ascii String.
From stdpp Require Import base list strings gmap.

Local Open Scope string_scope.
Local Open Scope Z_scope.

(** ** Strings *)

Module JsString.

(** White space and line terminators of ECMAScript among the code units
    below 256: TAB, LF, VT, FF, CR, SP and NBSP. *)
Definition isWhiteSpace (c : ascii) : bool :=
  let n := Ascii.nat_of_ascii c in
  ((9 <=? n)%nat && (n <=? 13)%nat) || (n =? 32)%nat || (n =? 160)%nat.

Fixpoint trimStart (s : string) : string :=
  match s with
  | String c s' => if isWhiteSpace c then trimStart s' else s
  | EmptyString => EmptyString
  end.

(** [trimEnd] keeps a character when it is not white space or when
    something is kept after it. *)
Fixpoint trimEnd (s : string) : string :=
  match s with
  | String c s' =>
      match trimEnd s' with
      | EmptyString => if isWhiteSpace c then EmptyString else String c EmptyString
      | t => String c t
      end
  | EmptyString => EmptyString
  end.

(** [String.prototype.trim]. *)
Definition trim (s : string) : string := trimEnd (trimStart s).

(** Truthiness of a string: [if (s)] holds unless [s] is empty. *)
Definition truthy (s : string) : bool :=
  match s with EmptyString => false | String _ _ => true end.

(** [s.split(sep)] for a one-character separator: the pieces between the
    occurrences of [sep], always at least one piece. *)
Fixpoint split (sep : ascii) (s : string) : list string :=
  match s with
  | EmptyString => [EmptyString]
  | String c s' =>
      if Ascii.eqb c sep then EmptyString :: split sep s'
      else match split sep s' with
           | piece :: rest => String c piece :: rest
           | [] => [String c EmptyString]
           end
  end.

Definition digitValue (c : ascii) : option Z :=
  let n := Ascii.nat_of_ascii c in
  if ((48 <=? n)%nat && (n <=? 57)%nat) then Some (Z.of_nat n - 48) else None.

Fixpoint digits (acc : Z) (s : string) : option Z :=
  match s with
  | EmptyString => Some acc
  | String c s' =>
      match digitValue c with
      | Some d => digits (10 * acc + d) s'
      | None => None
      end
  end.

(** [Number(s)] on the decimal fragment: surrounding white space is
    dropped, the empty string is 0, a run of decimal digits is its value.
    Every other text is [NaN] here; signs, fractions, exponents and
    radix prefixes, which a time field never holds, are outside the
    fragment. *)
Definition toNumber (s : string) : option Z := digits 0 (trim s).

End JsString.

(** ** Dates *)

Module JsDate.

Definition msPerMinute : Z := 60000.
Definition msPerHour : Z := 3600000.
Definition msPerDay : Z := 86400000.

(** A [Date] object holds a time value, or [NaN] when it is invalid. *)
Definition Date := option Z.

(** [TimeClip]: a time value beyond 8.64e15 ms from the epoch is invalid. *)
Definition timeClip (t : Z) : Date :=
  if Z.abs t <=? 8640000000000000 then Some t else None.

Section LocalTime.
(** Offset of local time from UTC, in milliseconds. *)
Variable tz : Z.

(** Number of the local day an instant falls in. *)
Definition day (t : Z) : Z := (t + tz) / msPerDay.

(** The instant at which the local day [d] reaches [h]:[m]:00.000. *)
Definition atTimeOfDay (d h m : Z) : Z :=
    d * msPerDay + h * msPerHour + m * msPerMinute - tz.

(** [date.setHours(hours, minutes, 0, 0)]: keeps the local day and
      replaces the time within the day; [NaN] in any part invalidates the
      date. *)
Definition setHours (date : Date) (hours minutes : option Z) : Date :=
    match date, hours, minutes with
    | Some t, Some h, Some m => timeClip (atTimeOfDay (day t) h m)
    | _, _, _ => None
    end.
End LocalTime.

(** [date.setDate(date.getDate() + 1)]: the same local time on the next
    calendar day, which is one day of milliseconds later. *)
Definition setDateNextDay (date : Date) : Date :=
  match date with
  | Some t => timeClip (t + msPerDay)
  | None => None
  end.

(** [a < b] on dates compares time values; it is false when one is [NaN]. *)
Definition lt (a b : Date) : bool :=
  match a, b with
  | Some x, Some y => x <? y
  | _, _ => false
  end.

(** [a.getTime() - b.getTime()]. *)
Definition diff (a b : Date) : option Z :=
  match a, b with
  | Some x, Some y => Some (x - y)
  | _, _ => None
  end.

End JsDate.

(** ** The browser *)

(** A value of [JSON.parse] / an argument of [JSON.stringify]. *)
#[warnings="-register-all"] Inductive JSON : Type :=
  | JNull
  | JNum (n : Z)
  | JStr (s : string)
  | JArr (items : list JSON)
  | JObj (props : list (string * JSON)).

(** A text kept in [localStorage].  [Document j] stands for the text
    [JSON.stringify] gives for [j], which [JSON.parse] reads back as [j];
    [Plain s] is a text stored as it is and not a JSON document (the login
    name, or a damaged entry). *)
Inductive Text : Type :=
  | Plain (s : string)
  | Document (j : JSON).

(** What a timer runs when it fires: the closure of lines 921-925 and
    960-964, which captures the medication name. *)
Inductive Callback : Type :=
  | Notify (medicationName : string).

Inductive TimerStatus : Type := Pending | Fired | Cancelled.

Record Timer : Type := {
  fireAt : Z;
  callback : Callback;
  status : TimerStatus
}.

(** The timer table lists every timer created so far; the handle
    [setTimeout] returns is the timer's position in it.  (The code never
    looks at the value of a handle.) *)
Record Browser : Type := {
  clock : Z;
  timers : list Timer;
  localStorage : gmap string Text;
  alerts : list string;
  spoken : list string
}.

Definition withTimers (ts : list Timer) (b : Browser) : Browser :=
  {| clock := clock b; timers := ts; localStorage := localStorage b;
     alerts := alerts b; spoken := spoken b |}.

Definition withStorage (m : gmap string Text) (b : Browser) : Browser :=
  {| clock := clock b; timers := timers b; localStorage := m;
     alerts := alerts b; spoken := spoken b |}.

(** *** Browser effects, with exceptions

    A computation reads and changes the browser and either returns a value
    or throws; what it did before throwing stays done. *)
Definition M (A : Type) : Type := Browser -> option A * Browser.

Definition ret {A} (a : A) : M A := fun b => (Some a, b).

Definition bind {A B} (m : M A) (k : A -> M B) : M B :=
  fun b => match m b with
           | (Some a, b') => k a b'
           | (None, b') => (None, b')
           end.

Definition throw {A} : M A := fun b => (None, b).

(** [try { body } catch (e) { console.error(..., e) }]: the console is not
    part of the model, so catching only stops the exception. *)
Definition tryCatch (body : M unit) : M unit :=
  fun b => (Some tt, snd (body b)).

Declare Scope browser_scope.
Delimit Scope browser_scope with M.
Notation "x <- m ;; k" := (bind m (fun x => k))
  (at level 100, m at next level, right associativity) : browser_scope.
Notation "m ;; k" := (bind m (fun _ => k))
  (at level 100, right associativity) : browser_scope.

Fixpoint mapM {A B} (f : A -> M B) (l : list A) : M (list B) :=
  match l with
  | [] => ret []
  | a :: l' => (b <- f a ;; bs <- mapM f l' ;; ret (b :: bs))%M
  end.

(** [new Date()]. *)
Definition newDate : M JsDate.Date := fun b => (Some (Some (clock b)), b).

(** [Date.now()]. *)
Definition dateNow : M Z := fun b => (Some (clock b), b).

(** The delay [setTimeout] uses for its second argument: converted to a
    32-bit signed integer ([NaN] becomes 0, other values wrap) and then
    raised to 0 when negative. *)
Definition toInt32 (d : Z) : Z := (d + 2147483648) mod 4294967296 - 2147483648.

Definition timerDelay (timeout : option Z) : Z :=
  match timeout with
  | Some d => Z.max 0 (toInt32 d)
  | None => 0
  end.

Definition setTimeout (cb : Callback) (timeout : option Z) : M nat :=
  fun b =>
    let t := {| fireAt := clock b + timerDelay timeout; callback := cb;
                status := Pending |} in
    (Some (length (timers b)), withTimers (timers b ++ [t]) b).

Definition cancel (t : Timer) : Timer :=
  match status t with
  | Pending => {| fireAt := fireAt t; callback := callback t; status := Cancelled |}
  | _ => t
  end.

(** [clearTimeout(handle)]: cancels the timer when it is still pending;
    nothing happens for a timer that fired or for an unknown handle. *)
Definition clearTimeout (handle : nat) : M unit :=
  fun b => (Some tt, withTimers (alter cancel handle (timers b)) b).

Definition alert (msg : string) : M unit :=
  fun b => (Some tt,
            {| clock := clock b; timers := timers b;
               localStorage := localStorage b;
               alerts := alerts b ++ [msg]; spoken := spoken b |}).

(** [speak(text)] of lines 12-16. *)
Definition speak (text : string) : M unit :=
  fun b => (Some tt,
            {| clock := clock b; timers := timers b;
               localStorage := localStorage b;
               alerts := alerts b; spoken := spoken b ++ [text] |}).

Definition getItem (key : string) : M (option Text) :=
  fun b => (Some (localStorage b !! key), b).

(** [localStorage.setItem] in a store that takes the write; [setItemIn]
    below is the operation over a store that may be out of room. *)
Definition setItem (key : string) (value : Text) : M unit :=
  fun b => (Some tt, withStorage (<[key := value]> (localStorage b)) b).

(** [JSON.parse(text)] throws a [SyntaxError] on a text that is no JSON
    document. *)
Definition JSON_parse (text : Text) : M JSON :=
  match text with
  | Document j => ret j
  | Plain _ => throw
  end.

Definition JSON_stringify (j : JSON) : Text := Document j.

(** Truthiness of [localStorage.getItem(key)]: [null] and the empty text
    are falsy. *)
Definition textPresent (item : option Text) : option Text :=
  match item with
  | Some (Plain s) => if JsString.truthy s then item else None
  | Some (Document _) => item
  | None => None
  end.

(** ** The profile page (lines 891-978) *)

(** [interface Reminder]. *)
Module Reminder.
Record t : Type := {
  id : Z;
  name : string;
  time : string;
  timeoutId : nat
}.
End Reminder.

(** [Omit<Reminder, 'timeoutId'>], the form kept in [localStorage]. *)
Module Stored.
Record t : Type := {
  id : Z;
  name : string;
  time : string
}.

(** [({ timeoutId, ...rest }) => rest] of line 937, on a reminder of the
    declared type. *)
Definition rest (r : Reminder.t) : t :=
  {| id := Reminder.id r; name := Reminder.name r; time := Reminder.time r |}.

(** [{ ...r, timeoutId }] of line 926. *)
Definition withTimeoutId (r : t) (timeoutId : nat) : Reminder.t :=
  {| Reminder.id := id r; Reminder.name := name r; Reminder.time := time r;
     Reminder.timeoutId := timeoutId |}.

(** The object [JSON.stringify] sees for a stored reminder. *)
Definition toJSON (r : t) : JSON :=
  JObj [("id", JNum (id r)); ("name", JStr (name r)); ("time", JStr (time r))].

(** Reading a parsed item at the declared type [Omit<Reminder, 'timeoutId'>]:
    an object with the fields the persist effect writes. *)
Definition decode (j : JSON) : option t :=
  match j with
  | JObj [(k1, JNum i); (k2, JStr n); (k3, JStr tm)] =>
      if (String.eqb k1 "id" && String.eqb k2 "name" && String.eqb k3 "time")%bool
      then Some {| id := i; name := n; time := tm |}
      else None
  | _ => None
  end.

(** The map callback reads an item at that type.  An item of another shape
    ends the typed embedding as an exception does; the code itself throws
    only on an item without a [time] text ([r.time.split]) and carries the
    further fields of any other item along, which [loadable] and
    [objRest] below describe on the objects as they are. *)
Definition ofJSON (j : JSON) : M t :=
  match decode j with
  | Some r => ret r
  | None => throw
  end.

(** The parsed document as an array: [parsedReminders.map] throws on
    anything else. *)
Definition items (j : JSON) : M (list JSON) :=
  match j with
  | JArr l => ret l
  | _ => throw
  end.
End Stored.

(** The component state of [ProfilePage] (lines 899-901). *)
Record ProfilePage : Type := {
  reminders : list Reminder.t;
  medName : string;
  medTime : string
}.

Definition initialPage : ProfilePage :=
  {| reminders := []; medName := ""; medTime := "" |}.

(** A queued state update. *)
Inductive Update : Type :=
  | SetReminders (rs : list Reminder.t)
  | SetMedName (s : string)
  | SetMedTime (s : string).

Definition applyUpdate (p : ProfilePage) (u : Update) : ProfilePage :=
  match u with
  | SetReminders rs => {| reminders := rs; medName := medName p; medTime := medTime p |}
  | SetMedName s => {| reminders := reminders p; medName := s; medTime := medTime p |}
  | SetMedTime s => {| reminders := reminders p; medName := medName p; medTime := s |}
  end.

Definition setsReminders (u : Update) : bool :=
  match u with SetReminders _ => true | _ => false end.

Definition storageKey (currentUser : string) : string := "reminders_" +:+ currentUser.

Definition notificationMessage (medicationName : string) : string :=
  "Time to take your " +:+ medicationName +:+ "!".

(** Running a timer's callback (lines 921-925, 960-964). *)
Definition runCallback (cb : Callback) : M unit :=
  match cb with
  | Notify n => (let msg := notificationMessage n in alert msg ;; speak msg)%M
  end.

Section Profile.
(** Offset of local time from UTC, and the [currentUser] prop. *)
Variable tz : Z.
Variable currentUser : string.

(** [const [hours, minutes] = time.split(':').map(Number)]: a missing
    element is [undefined], which [setHours] turns into [NaN]. *)
Definition hoursMinutes (time : string) : option Z * option Z :=
  let parts := JsString.toNumber <$> JsString.split ":" time in
  (mjoin (parts !! 0%nat), mjoin (parts !! 1%nat)).

(** Lines 910-920 and 952-959, which are the same text: the next instant
    at which the local clock shows [time], as a delay from now. *)
Definition delayUntil (time : string) : M (option Z) :=
  (let '(hours, minutes) := hoursMinutes time in
   now <- newDate ;;
   reminderDate <- newDate ;;
   let reminderDate := JsDate.setHours tz reminderDate hours minutes in
   let reminderDate :=
     if JsDate.lt reminderDate now then JsDate.setDateNextDay reminderDate
     else reminderDate in
   ret (JsDate.diff reminderDate now))%M.

(** Lines 910-925 (and 952-964): compute the delay and arm the timer. *)
Definition schedule (medicationName time : string) : M nat :=
  (timeout <- delayUntil time ;;
   setTimeout (Notify medicationName) timeout)%M.

(** The callback of [parsedReminders.map] (lines 909-927). *)
Definition reschedule (item : JSON) : M Reminder.t :=
  (r <- Stored.ofJSON item ;;
   timeoutId <- schedule (Stored.name r) (Stored.time r) ;;
   ret (Stored.withTimeoutId r timeoutId))%M.

(** The body of the load effect's [try] (lines 905-929); returns the state
    updates it queues. *)
Definition loadBody : M (list Update) :=
  (storedReminders <- getItem (storageKey currentUser) ;;
   match textPresent storedReminders with
   | Some text =>
       parsed <- JSON_parse text ;;
       parsedReminders <- Stored.items parsed ;;
       remindersWithTimeouts <- mapM reschedule parsedReminders ;;
       ret [SetReminders remindersWithTimeouts]
   | None => ret []
   end)%M.

(** The load effect (lines 903-933): an exception ends it with nothing
    queued. *)

Definition loadEffect : M (list Update) :=
  fun b => match loadBody b with
           | (Some us, b') => (Some us, b')
           | (None, b') => (Some [], b')
           end.

(** The persist effect (lines 935-942). *)
Definition persistEffect (p : ProfilePage) : M unit :=
  tryCatch
    (let remindersToStore := Stored.rest <$> reminders p in
     setItem (storageKey currentUser)
             (JSON_stringify (JArr (Stored.toJSON <$> remindersToStore)))).

(** [addReminder] (lines 948-970). *)
Definition addReminder (p : ProfilePage) : M (list Update) :=
  (if negb (JsString.truthy (medName p)) || negb (JsString.truthy (medTime p))
   then ret []
   else
     timeoutId <- schedule (medName p) (medTime p) ;;
     now <- dateNow ;;
     let newReminder :=
       {| Reminder.id := now; Reminder.name := medName p;
          Reminder.time := medTime p; Reminder.timeoutId := timeoutId |} in
     ret [SetReminders (reminders p ++ [newReminder]);
          SetMedName ""; SetMedTime ""])%M.

(** [removeReminder] (lines 972-978). *)
Definition removeReminder (id : Z) (p : ProfilePage) : M (list Update) :=
  (let reminderToRemove :=
     List.find (fun r => Z.eqb (Reminder.id r) id) (reminders p) in
   match reminderToRemove with
   | Some r => clearTimeout (Reminder.timeoutId r)
   | None => ret tt
   end ;;
   ret [SetReminders
          (List.filter (fun r => negb (Z.eqb (Reminder.id r) id)) (reminders p))])%M.

(** After a handler or effect: the queued updates are applied, the
    component renders again, and the persist effect runs when [reminders]
    was set (its dependency changed). *)
Definition commit (us : list Update) (p : ProfilePage) : M ProfilePage :=
  (let p' := foldl applyUpdate p us in
   if existsb setsReminders us then persistEffect p' ;; ret p' else ret p')%M.

(** Mounting the page: the first render has the initial state; its effects
    run in the order they are declared, then the updates queued by the load
    effect are committed. *)
Definition mount : M ProfilePage :=
  (us <- loadEffect ;;
   persistEffect initialPage ;;
   commit us initialPage)%M.

End Profile.

(** ** The page in the browser: events *)

Record State : Type := {
  page : ProfilePage;
  browser : Browser
}.

Inductive Event : Type :=
  | ChangeMedName (s : string)      (* typing or dictating into the name field *)
  | ChangeMedTime (s : string)      (* picking a time *)
  | SubmitAddReminder               (* the form's submit *)
  | ClickDelete (id : Z)            (* a reminder's Delete button *)
  | TimerFires (handle : nat)       (* the browser runs a due timer *)
  | Tick (ms : N).                  (* time passes *)

Definition fire (t : Timer) : Timer :=
  {| fireAt := fireAt t; callback := callback t; status := Fired |}.

(** The browser runs the callback of a pending timer whose instant has
    come; the timer is spent. *)
Definition fireTimer (handle : nat) : M unit :=
  fun b =>
    match timers b !! handle with
    | Some t =>
        match status t with
        | Pending =>
            if fireAt t <=? clock b
            then runCallback (callback t) (withTimers (<[handle := fire t]> (timers b)) b)
            else (Some tt, b)
        | _ => (Some tt, b)
        end
    | None => (Some tt, b)
    end.

Definition advance (ms : N) (b : Browser) : Browser :=
  {| clock := clock b + Z.of_N ms; timers := timers b;
     localStorage := localStorage b; alerts := alerts b; spoken := spoken b |}.

Section Run.
Variable tz : Z.
Variable currentUser : string.

(** A handler followed by the render it causes. *)
Definition handle (handler : ProfilePage -> M (list Update)) (s : State) : State :=
  match handler (page s) (browser s) with
  | (Some us, b) =>
      match commit currentUser us (page s) b with
      | (Some p, b') => {| page := p; browser := b' |}
      | (None, b') => {| page := page s; browser := b' |}
      end
  | (None, b) => {| page := page s; browser := b |}
  end.

Definition step (e : Event) (s : State) : State :=
  match e with
  | ChangeMedName v => handle (fun _ => ret [SetMedName v]) s
  | ChangeMedTime v => handle (fun _ => ret [SetMedTime v]) s
  | SubmitAddReminder => handle (addReminder tz) s
  | ClickDelete id => handle (removeReminder id) s
  | TimerFires h => {| page := page s; browser := snd (fireTimer h (browser s)) |}
  | Tick ms => {| page := page s; browser := advance ms (browser s) |}
  end.

(** The state right after the page is mounted in browser [b]. *)
Definition mounted (b : Browser) : State :=
  match mount tz currentUser b with
  | (Some p, b') => {| page := p; browser := b' |}
  | (None, b') => {| page := initialPage; browser := b' |}
  end.

Definition run (es : list Event) (s : State) : State := foldl (fun s e => step e s) s es.

End Run.

(** The timer a reminder holds is pending. *)
Definition pendingTimer (b : Browser) (handle : nat) : bool :=
  match timers b !! handle with
  | Some t => match status t with Pending => true | _ => false end
  | None => false
  end.

(** Number of reminders of [rs] that carry the identifier [id] and hold a
    pending timer in [b]. *)
Definition pendingFor (b : Browser) (rs : list Reminder.t) (id : Z) : nat :=
  length (List.filter
            (fun r => Z.eqb (Reminder.id r) id && pendingTimer b (Reminder.timeoutId r))
            rs).

(** Every reminder holds a handle of the timer table, and no two reminders
    hold the same one. *)
Definition handlesValid (s : State) : Prop :=
  NoDup (Reminder.timeoutId <$> reminders (page s)) /\
  Forall (fun r => (Reminder.timeoutId r < length (timers (browser s)))%nat)
         (reminders (page s)).

(** The states of a page mounted in some browser and driven by events. *)
Inductive reachable (tz : Z) (currentUser : string) : State -> Prop :=
  | reachable_mounted (b : Browser) :
      reachable tz currentUser (mounted tz currentUser b)
  | reachable_step (e : Event) (s : State) :
      reachable tz currentUser s ->
      reachable tz currentUser (step tz currentUser e s).

(** ** The login page and the application shell (lines 1496-1505, 1597-1600) *)

Record LoginPage : Type := {
  username : string;
  password : string
}.

Section Login.
(** The [onLogin] prop, acting on whatever state its owner keeps. *)
Context {A : Type}.
Variable onLogin : string -> A -> A.

(** [LoginPage.handleSubmit] (lines 1500-1505). *)
Definition handleSubmit (form : LoginPage) (a : A) : A :=
  if JsString.truthy (JsString.trim (username form))
  then onLogin (JsString.trim (username form)) a
  else a.
End Login.

Record App : Type := {
  currentUser : option string;
  appBrowser : Browser
}.

(** [App.handleLogin] (lines 1597-1600). *)
Definition handleLogin (username : string) (a : App) : App :=
  {| currentUser := Some username;
     appBrowser := snd (setItem "currentUser" (Plain username) (appBrowser a)) |}.

(** ** Time-of-day texts *)

(** The value of an [<input type="time">]: two digits, a colon, two digits. *)
Definition digitChar (d : Z) : ascii := ascii_of_nat (48 + Z.to_nat d).

Definition twoDigits (n : Z) : string :=
  String (digitChar (n / 10)) (String (digitChar (n mod 10)) EmptyString).

Definition timeString (h m : Z) : string := twoDigits h +:+ ":" +:+ twoDigits m.

(** The instant the code aims at: today at [h]:[m] unless that is strictly
    before [now], then tomorrow at [h]:[m]. *)
Definition nextOccurrence (tz now h m : Z) : Z :=
  let today := JsDate.atTimeOfDay tz (JsDate.day tz now) h m in
  let tomorrow := JsDate.atTimeOfDay tz (JsDate.day tz now + 1) h m in
  if today <? now then tomorrow else today.

(** The clock shows a date that stays valid two days ahead. *)
Definition clockInRange (now : Z) : Prop :=
  Z.abs now <= 8640000000000000 - 2 * JsDate.msPerDay.

(** What [delayUntil] returns when the clock reads [now]. *)
Definition nextDelay (tz now : Z) (time : string) : option Z :=
  let '(hours, minutes) := hoursMinutes time in
  let reminderDate := JsDate.setHours tz (Some now) hours minutes in
  let reminderDate :=
    if JsDate.lt reminderDate (Some now) then JsDate.setDateNextDay reminderDate
    else reminderDate in
  JsDate.diff reminderDate (Some now).

(** The timer [schedule] adds when the clock reads [now]. *)
Definition armed (tz now : Z) (medicationName time : string) : Timer :=
  {| fireAt := now + timerDelay (nextDelay tz now time);
     callback := Notify medicationName; status := Pending |}.

Definition armedFor (tz now : Z) (r : Stored.t) : Timer :=
  armed tz now (Stored.name r) (Stored.time r).

(** The reminders the load effect builds from the stored ones when the
    next free timer handle is [base]. *)
Fixpoint withHandlesFrom (base : nat) (l : list Stored.t) : list Reminder.t :=
  match l with
  | [] => []
  | r :: l' => Stored.withTimeoutId r base :: withHandlesFrom (S base) l'
  end.


(** The check behind [hoursMinutes_timeString], run over every time of day. *)
Definition readsBack (h m : nat) : bool :=
  match hoursMinutes (timeString (Z.of_nat h) (Z.of_nat m)) with
  | (Some a, Some b) => (a =? Z.of_nat h) && (b =? Z.of_nat m)
  | _ => false
  end.

(** The reminder [addReminder] builds in browser [b] from the form fields. *)
Definition newReminderOf (p : ProfilePage) (b : Browser) : Reminder.t :=
  {| Reminder.id := clock b; Reminder.name := medName p;
     Reminder.time := medTime p; Reminder.timeoutId := length (timers b) |}.

(** The identifiers other than [id], as [removeReminder] keeps them. *)
Definition without (id : Z) (rs : list Reminder.t) : list Reminder.t :=
  List.filter (fun r => negb (Z.eqb (Reminder.id r) id)) rs.

(** The object the persist effect writes for a reminder. *)
Definition storedObject (r : Reminder.t) : JSON :=
  JObj [("id", JNum (Reminder.id r)); ("name", JStr (Reminder.name r));
        ("time", JStr (Reminder.time r))].

(** A browser in which nothing has happened yet. *)
Definition freshBrowser (t0 : Z) : Browser :=
  {| clock := t0; timers := []; localStorage := ∅; alerts := []; spoken := [] |}.

(** The document the persist effect writes for a list of reminders. *)
Definition persisted (rs : list Reminder.t) : Text :=
  JSON_stringify (JArr (Stored.toJSON <$> (Stored.rest <$> rs))).

(** A session in the time zone UTC+05:30 that starts at 08:00 local time
    with empty storage: "Aspirin" is entered for 09:00 and added, an hour
    passes, and the browser runs the timer. *)
Definition istOffset : Z := 19800000.

Definition eightOClock : Z := 8 * JsDate.msPerHour - istOffset.

Definition aspirinTyped : State :=
  run istOffset "asha" [ChangeMedName "Aspirin"; ChangeMedTime "09:00"]
      (mounted istOffset "asha" (freshBrowser eightOClock)).

Definition aspirinAdded : State :=
  step istOffset "asha" SubmitAddReminder aspirinTyped.

Definition aspirinFired : State :=
  run istOffset "asha" [Tick 3600000; TimerFires 0] aspirinAdded.

(** The user leaves the profile page after adding and comes back: the
    component is mounted again in the same browser, whose timers were not
    cleared (the load effect returns no cleanup). *)
Definition aspirinRevisited : State :=
  mounted istOffset "asha" (browser aspirinAdded).

Definition aspirin : Reminder.t :=
  {| Reminder.id := eightOClock; Reminder.name := "Aspirin";
     Reminder.time := "09:00"; Reminder.timeoutId := 0 |}.

(** A later session of the same user: the storage of [aspirinAdded] in a
    browser started two hours later, with no timers. *)
Definition laterSession : Browser :=
  {| clock := eightOClock + 2 * JsDate.msPerHour; timers := [];
     localStorage := localStorage (browser aspirinAdded);
     alerts := []; spoken := [] |}.

(** ** Notions for the properties of the page beyond single operations *)

(** The stored document reflects the reminders on the page. *)
Definition inSync (user : string) (s : State) : Prop :=
  localStorage (browser s) !! storageKey user = Some (persisted (reminders (page s))).

(** The table [ts'] continues [ts]: every timer of [ts] is still at its
    handle with its instant and callback, and a timer that was not pending
    has kept its status. *)
Definition continues (ts ts' : list Timer) : Prop :=
  forall (handle : nat) (t : Timer),
    ts !! handle = Some t ->
    exists t' : Timer,
      ts' !! handle = Some t' /\
      fireAt t' = fireAt t /\ callback t' = callback t /\
      (status t <> Pending -> status t' = status t).

(** A stored entry the load effect cannot use as a list: nothing stored, a
    text that is no JSON document, or a document that is no array. *)
Definition unreadable (item : option Text) : bool :=
  match item with
  | None => true
  | Some (Plain _) => true
  | Some (Document (JArr _)) => false
  | Some (Document _) => true
  end.

(** An array item that is no object: reading its [time] throws. *)
Definition notAnObject (j : JSON) : bool :=
  match j with
  | JObj _ => false
  | _ => true
  end.

(** ** The application shell beyond login (lines 1587-1612) *)

Definition removeItem (key : string) : M unit :=
  fun b => (Some tt, withStorage (delete key (localStorage b)) b).

(** [App.handleLogout] (lines 1602-1605). *)
Definition handleLogout (a : App) : App :=
  {| currentUser := None;
     appBrowser := snd (removeItem "currentUser" (appBrowser a)) |}.

(** [if (!currentUser)] of line 1607: the login page is shown for [null]
    and for the empty name. *)
Definition showsLogin (a : App) : bool :=
  match currentUser a with
  | Some u => negb (JsString.truthy u)
  | None => true
  end.

Section Shell.
(** The text of a stored JSON document, as [JSON.stringify] writes it; it
    is never empty. *)
Variable documentText : JSON -> string.

Definition textString (t : Text) : string :=
  match t with
  | Plain s => s
  | Document j => documentText j
  end.

(** The effect of lines 1590-1595, run on the state it finds. *)
Definition restoreSession (a : App) : App :=
  match textPresent (localStorage (appBrowser a) !! "currentUser") with
  | Some loggedInUser =>
      {| currentUser := Some (textString loggedInUser); appBrowser := appBrowser a |}
  | None => a
  end.

(** The application mounted in browser [b]: no user at first (line 1588),
    then the effect. *)
Definition appMounted (b : Browser) : App :=
  restoreSession {| currentUser := None; appBrowser := b |}.
End Shell.

(** ** The appointment reminder of the hospitals page (lines 562-572, 663-686) *)

Module Booking.
Record t : Type := {
  hospitalName : string;
  date : string;
  time : string
}.
End Booking.

Record Confirmation : Type := {
  message : string;
  confirmationNumber : string;
  bookingDetails : Booking.t
}.

Definition timeSlots : list string :=
  ["09:00"; "10:00"; "11:00"; "13:00"; "14:00"; "15:00"; "16:00"; "17:00"].

(** What [handleSetReminder] asks of the browser and of the component. *)
Inductive ReminderRequest : Type :=
  | NothingToRemind
      (* no confirmation: the return of line 664 *)
  | ArmTimer (delay : Z) (reminderMsg : string)
      (* setTimeout with this effective delay; the callback alerts and
         speaks [reminderMsg]; setReminderSet(true) *)
  | Refuse (alertMsg : string).
      (* alert(alertMsg); nothing else *)

Definition appointmentMessage (hospitalName time : string) : string :=
  "Reminder: You have an appointment at " +:+ hospitalName +:+ " tomorrow at "
    +:+ time +:+ ".".

Definition tooLateMessage : string :=
  "The appointment is less than 24 hours away. A reminder cannot be set for a past time.".

Section Appointment.
Variable tz : Z.
(** [new Date(text)] for the text of the date field. *)
Variable parseDate : string -> JsDate.Date.

(** [new Date(appointmentDateTime.getTime() - 24 * 60 * 60 * 1000)]. *)
Definition dayBefore (appointmentDateTime : JsDate.Date) : JsDate.Date :=
  match appointmentDateTime with
  | Some t => JsDate.timeClip (t - 24 * 60 * 60 * 1000)
  | None => None
  end.

(** [handleSetReminder] (lines 663-684) when the clock reads [now]. *)
Definition handleSetReminder (confirmation : option Confirmation) (now : Z)
    : ReminderRequest :=
  match confirmation with
  | None => NothingToRemind
  | Some c =>
      let hospitalName := Booking.hospitalName (bookingDetails c) in
      let date := Booking.date (bookingDetails c) in
      let time := Booking.time (bookingDetails c) in
      let '(hours, minutes) := hoursMinutes time in
      let appointmentDateTime := JsDate.setHours tz (parseDate date) hours minutes in
      let reminderDateTime := dayBefore appointmentDateTime in
      if JsDate.lt (Some now) reminderDateTime
      then
        let timeout := JsDate.diff reminderDateTime (Some now) in
        ArmTimer (timerDelay timeout) (appointmentMessage hospitalName time)
      else Refuse tooLateMessage
  end.
End Appointment.

(** ** The imaging page: file kinds and fenced JSON (lines 1409-1412, 1419-1448) *)

(** [String.prototype.toLowerCase] on code units below 256: A-Z and the
    Latin-1 capitals (all of 192-222 but the multiplication sign 215) move
    up by 32. *)
Definition toLowerChar (c : ascii) : ascii :=
  let n := Ascii.nat_of_ascii c in
  if ((65 <=? n)%nat && (n <=? 90)%nat)
     || ((192 <=? n)%nat && (n <=? 222)%nat && negb (n =? 215)%nat)
  then Ascii.ascii_of_nat (n + 32)
  else c.

Fixpoint toLowerCase (s : string) : string :=
  match s with
  | EmptyString => EmptyString
  | String c s' => String (toLowerChar c) (toLowerCase s')
  end.

(** [array.includes(x)] on texts. *)
Definition includes (l : list string) (x : string) : bool :=
  existsb (String.eqb x) l.

(** [name.split('.').pop()?.toLowerCase()] of line 1420. *)
Definition fileExtension (name : string) : option string :=
  toLowerCase <$> last (JsString.split "." name).

Inductive FileKind : Type :=
  | ImageFile      (* the branch of line 1423 *)
  | ReportFile     (* the branch of line 1431 *)
  | Unsupported.   (* the error of line 1447 *)

(** The branch [handleAnalysis] takes for a file name (lines 1423-1448). *)
Definition fileKind (name : string) : FileKind :=
  let ext := default "" (fileExtension name) in
  if includes ["png"; "jpg"; "jpeg"] ext then ImageFile
  else if includes ["txt"; "pdf"] ext then ReportFile
  else Unsupported.

Definition hasDot (s : string) : bool :=
  existsb (Ascii.eqb ".") (list_ascii_of_string s).

Definition LF : ascii := Ascii.ascii_of_nat 10.

(** The two literal parts of the pattern of line 1410: three backticks,
    [json] and a line feed; a line feed and three backticks. *)
Definition fenceOpen : string := "```json" +:+ String LF EmptyString.

Definition fenceClose : string := String LF "```".

(** [Some rest] when [s] is [p] followed by [rest]. *)
Fixpoint stripPrefix (p s : string) : option string :=
  match p, s with
  | EmptyString, _ => Some s
  | String a p', String b s' => if Ascii.eqb a b then stripPrefix p' s' else None
  | String _ _, EmptyString => None
  end.

(** The lazy [[\s\S]*?] before [closing]: the text up to the first place
    where [closing] starts. *)
Fixpoint lazyBefore (closing s : string) : option string :=
  match stripPrefix closing s with
  | Some _ => Some EmptyString
  | None =>
      match s with
      | String c s' => String c <$> lazyBefore closing s'
      | EmptyString => None
      end
  end.

(** The lazy [[\s\S]+?] before [closing]: at least one character. *)
Definition lazyPlusBefore (closing s : string) : option string :=
  match s with
  | String c s' => String c <$> lazyBefore closing s'
  | EmptyString => None
  end.

(** The capture group of the first match of the pattern of line 1410: the
    pattern is tried at each position from the left. *)
Fixpoint firstFence (s : string) : option string :=
  match stripPrefix fenceOpen s ≫= lazyPlusBefore fenceClose with
  | Some body => Some body
  | None =>
      match s with
      | String _ s' => firstFence s'
      | EmptyString => None
      end
  end.

Section Imaging.
(** [JSON.parse] on a text; [None]: it throws a [SyntaxError]. *)
Variable parseText : string -> option JSON.

(** [extractJsonFromMarkdown] (lines 1409-1412): [null] when the pattern
    does not match, else whatever [JSON.parse] makes of the capture group
    ([None]: the exception of [JSON.parse] leaves the function). *)
Definition extractJsonFromMarkdown (text : string) : option JSON :=
  match firstFence text with
  | Some body => parseText body
  | None => Some JNull
  end.
End Imaging.

(** ** Notions for the notification of a reminder *)

(** The timer at [handle] has reached its instant. *)
Definition due (b : Browser) (handle : nat) : bool :=
  match timers b !! handle with
  | Some t => fireAt t <=? clock b
  | None => false
  end.

(** Every reminder on the page holds a timer whose callback announces the
    reminder's own name. *)
Definition announcesOwnName (s : State) : Prop :=
  forall r : Reminder.t,
    r ∈ reminders (page s) ->
    exists t : Timer,
      timers (browser s) !! Reminder.timeoutId r = Some t /\
      callback t = Notify (Reminder.name r).

(** ** More of the Aspirin session, and sample bookings *)

(** A second "Aspirin", for 21:00, added while the clock still reads 08:00:
    it gets the identifier of the first. *)
Definition aspirinTwice : State :=
  run istOffset "asha"
      [ChangeMedName "Aspirin"; ChangeMedTime "21:00"; SubmitAddReminder]
      aspirinAdded.

Definition eveningAspirin : Reminder.t :=
  {| Reminder.id := eightOClock; Reminder.name := "Aspirin";
     Reminder.time := "21:00"; Reminder.timeoutId := 1 |}.

(** One hour after adding: the timer has reached its instant. *)
Definition aspirinDue : State := run istOffset "asha" [Tick 3600000] aspirinAdded.

(** A browser whose stored list holds the Aspirin reminder and then [null]. *)
Definition damagedSession : Browser :=
  {| clock := eightOClock; timers := [];
     localStorage :=
       {[ storageKey "asha" :=
            Document (JArr [Stored.toJSON (Stored.rest aspirin); JNull]) ]};
     alerts := []; spoken := [] |}.





(** ** What a reminder is to the user, and reminder objects as the code
    handles them beyond the declared type (lines 926, 937, 966) *)

Definition tripleOf (r : Reminder.t) : Z * string * string :=
  (Reminder.id r, Reminder.name r, Reminder.time r).







(** The Aspirin reminder deleted after the page was visited again, and the
    hour after that. *)
Definition aspirinDeletedAfterRevisit : State :=
  step istOffset "asha" (ClickDelete eightOClock) aspirinRevisited.

Definition aspirinAnnouncedAfterDelete : State :=
  run istOffset "asha" [Tick 3600000; TimerFires 0] aspirinDeletedAfterRevisit.

(** Both Aspirin reminders of [aspirinTwice] deleted through their shared
    identifier. *)
Definition aspirinTwiceDeleted : State :=
  step istOffset "asha" (ClickDelete eightOClock) aspirinTwice.

(** ** A store that is out of room *)

(** [localStorage.setItem] over a store that has [room] for the write or
    not: without room it throws a [QuotaExceededError] and the store is as
    it was. *)
Definition setItemIn (room : bool) (key : string) (value : Text) : M unit :=
  if room then setItem key value else throw.

Section Quota.
Variable room : bool.
Variable tz : Z.
Variable currentUser : string.

(** The persist effect (lines 935-942) over such a store; the [catch] of
    lines 939-941 logs the error and the page goes on. *)
Definition persistEffectIn (p : ProfilePage) : M unit :=
  tryCatch
    (let remindersToStore := Stored.rest <$> reminders p in
     setItemIn room (storageKey currentUser)
               (JSON_stringify (JArr (Stored.toJSON <$> remindersToStore)))).

Definition commitIn (us : list Update) (p : ProfilePage) : M ProfilePage :=
  (let p' := foldl applyUpdate p us in
   if existsb setsReminders us then persistEffectIn p' ;; ret p' else ret p')%M.

Definition handleIn (handler : ProfilePage -> M (list Update)) (s : State) : State :=
  match handler (page s) (browser s) with
  | (Some us, b) =>
      match commitIn us (page s) b with
      | (Some p, b') => {| page := p; browser := b' |}
      | (None, b') => {| page := page s; browser := b' |}
      end
  | (None, b) => {| page := page s; browser := b |}
  end.

(** An event of the page when the write it may cause finds [room] or not. *)
Definition stepIn (e : Event) (s : State) : State :=
  match e with
  | ChangeMedName v => handleIn (fun _ => ret [SetMedName v]) s
  | ChangeMedTime v => handleIn (fun _ => ret [SetMedTime v]) s
  | SubmitAddReminder => handleIn (addReminder tz) s
  | ClickDelete id => handleIn (removeReminder id) s
  | TimerFires h => {| page := page s; browser := snd (fireTimer h (browser s)) |}
  | Tick ms => {| page := page s; browser := advance ms (browser s) |}
  end.
End Quota.

Example trim_example : JsString.trim "  ab c   " = "ab c".
Proof. reflexivity. Qed.

Example split_example : JsString.split ":"%char "09:05" = ["09"; "05"].
Proof. reflexivity. Qed.

Example toNumber_example : JsString.toNumber "09" = Some 9.
Proof. reflexivity. Qed.


(** * Properties *)

(** ** Time-of-day texts are read back *)

Lemma readsBack_all :
  forallb (fun h => forallb (readsBack h) (seq 0 60)) (seq 0 24) = true.
Proof. vm_compute. reflexivity. Qed.

Lemma hoursMinutes_timeString (h m : Z) :
  0 <= h < 24 -> 0 <= m < 60 ->
  hoursMinutes (timeString h m) = (Some h, Some m).
Proof.
  intros Hh Hm.
  pose proof readsBack_all as Hall.
  rewrite forallb_forall in Hall.
  specialize (Hall (Z.to_nat h)).
  rewrite forallb_forall in Hall.
  assert (Hin : In (Z.to_nat h) (seq 0 24)) by (apply in_seq; lia).
  specialize (Hall Hin (Z.to_nat m)).
  assert (Hin' : In (Z.to_nat m) (seq 0 60)) by (apply in_seq; lia).
  specialize (Hall Hin').
  unfold readsBack in Hall.
  rewrite !Z2Nat.id in Hall by lia.
  destruct (hoursMinutes (timeString h m)) as [[a|] [b|]]; try discriminate.
  apply andb_prop in Hall as [Ha Hb].
  apply Z.eqb_eq in Ha, Hb. now subst.
Qed.

Lemma timeString_nonempty (h m : Z) : JsString.truthy (timeString h m) = true.
Proof. reflexivity. Qed.

(** ** The delay computation *)

Lemma delayUntil_run (tz : Z) (time : string) (b : Browser) :
  delayUntil tz time b = (Some (nextDelay tz (clock b) time), b).
Proof.
  unfold delayUntil, nextDelay.
  destruct (hoursMinutes time) as [hours minutes]. reflexivity.
Qed.

Lemma schedule_run (tz : Z) (medicationName time : string) (b : Browser) :
  schedule tz medicationName time b =
  (Some (length (timers b)),
   withTimers (timers b ++ [armed tz (clock b) medicationName time]) b).
Proof.
  unfold schedule, bind. rewrite delayUntil_run. reflexivity.
Qed.

Lemma toInt32_small (d : Z) : -2147483648 <= d < 2147483648 -> toInt32 d = d.
Proof. intros H. unfold toInt32. rewrite Z.mod_small; lia. Qed.

Lemma day_bounds (tz now : Z) :
  JsDate.day tz now * JsDate.msPerDay <= now + tz
  < JsDate.day tz now * JsDate.msPerDay + JsDate.msPerDay.
Proof.
  unfold JsDate.day, JsDate.msPerDay.
  pose proof (Z.div_mod (now + tz) 86400000 ltac:(lia)).
  pose proof (Z.mod_pos_bound (now + tz) 86400000 ltac:(lia)).
  lia.
Qed.

Lemma timeClip_in_range (t : Z) :
  Z.abs t <= 8640000000000000 -> JsDate.timeClip t = Some t.
Proof.
  intros H. unfold JsDate.timeClip.
  destruct (Z.leb_spec (Z.abs t) 8640000000000000); [reflexivity | lia].
Qed.

(** For a valid time of day the armed timer fires at the next occurrence. *)
Lemma armed_fireAt (tz now h m : Z) (medicationName time : string) :
  hoursMinutes time = (Some h, Some m) ->
  0 <= h < 24 -> 0 <= m < 60 -> clockInRange now ->
  armed tz now medicationName time =
  {| fireAt := nextOccurrence tz now h m;
     callback := Notify medicationName; status := Pending |}.
Proof.
  intros Hhm Hh Hm Hrange.
  unfold armed. f_equal.
  unfold nextDelay, nextOccurrence. rewrite Hhm.
  pose proof (day_bounds tz now) as Hday.
  unfold clockInRange in Hrange.
  unfold JsDate.setHours, JsDate.atTimeOfDay, JsDate.msPerHour,
    JsDate.msPerMinute, JsDate.msPerDay in *.
  set (d := JsDate.day tz now) in *.
  rewrite timeClip_in_range by lia.
  unfold JsDate.lt.
  destruct (Z.ltb_spec (d * 86400000 + h * 3600000 + m * 60000 - tz) now) as [Hlt|Hge].
  - unfold JsDate.setDateNextDay, JsDate.msPerDay.
    rewrite timeClip_in_range by lia.
    unfold JsDate.diff, timerDelay.
    rewrite toInt32_small by lia. lia.
  - unfold JsDate.diff, timerDelay.
    rewrite toInt32_small by lia. lia.
Qed.

(** ** Loading *)

Lemma ofJSON_toJSON (r : Stored.t) (b : Browser) :
  Stored.ofJSON (Stored.toJSON r) b = (Some r, b).
Proof. destruct r. reflexivity. Qed.

Lemma mapM_schedule (tz : Z) (stored : list Stored.t) : forall b : Browser,
  mapM (reschedule tz) (Stored.toJSON <$> stored) b =
  (Some (withHandlesFrom (length (timers b)) stored),
   withTimers
     (timers b ++ (armedFor tz (clock b) <$> stored)) b).
Proof.
  induction stored as [|r stored IH]; intros b.
  - cbn. rewrite app_nil_r. destruct b; reflexivity.
  - cbn [fmap list_fmap mapM]. unfold bind at 1. unfold reschedule at 1.
    unfold bind at 1. rewrite ofJSON_toJSON. unfold bind at 1.
    rewrite schedule_run. unfold ret at 1. unfold bind at 1. rewrite IH.
    cbn. rewrite length_app, Nat.add_1_r, <- app_assoc. reflexivity.
Qed.

Lemma loadEffect_persisted (tz : Z) (user : string) (stored : list Stored.t) (b : Browser) :
  localStorage b !! storageKey user = Some (Document (JArr (Stored.toJSON <$> stored))) ->
  loadEffect tz user b =
  (Some [SetReminders (withHandlesFrom (length (timers b)) stored)],
   withTimers
     (timers b ++ (armedFor tz (clock b) <$> stored)) b).
Proof.
  intros Hstored.
  unfold loadEffect, loadBody, bind, getItem. rewrite Hstored. cbn [textPresent JSON_parse Stored.items ret].
  rewrite mapM_schedule. reflexivity.
Qed.

Lemma rest_withHandlesFrom (stored : list Stored.t) : forall base : nat,
  Stored.rest <$> withHandlesFrom base stored = stored.
Proof.
  induction stored as [|r stored IH]; intros base; [reflexivity|].
  cbn. rewrite IH. destruct r; reflexivity.
Qed.

Lemma withHandlesFrom_lookup (stored : list Stored.t) : forall (base i : nat),
  withHandlesFrom base stored !! i =
  (fun r => Stored.withTimeoutId r (base + i)) <$> stored !! i.
Proof.
  induction stored as [|r stored IH]; intros base i; [reflexivity|].
  destruct i as [|i]; cbn.
  - now rewrite Nat.add_0_r.
  - rewrite IH. now rewrite Nat.add_succ_r.
Qed.

Lemma withHandlesFrom_handles (stored : list Stored.t) : forall base : nat,
  Reminder.timeoutId <$> withHandlesFrom base stored = seq base (length stored).
Proof.
  induction stored as [|r stored IH]; intros base; [reflexivity|].
  cbn. now rewrite IH.
Qed.

Lemma persistEffect_run (user : string) (p : ProfilePage) (b : Browser) :
  persistEffect user p b =
  (Some tt, withStorage (<[storageKey user := persisted (reminders p)]> (localStorage b)) b).
Proof. reflexivity. Qed.

(** Mounting the page over a document the persist effect wrote: one timer
    per stored reminder is armed, in order, behind the timers there
    already, and [localStorage] ends as it began. *)
Lemma mounted_persisted (tz : Z) (user : string) (stored : list Stored.t) (b : Browser) :
  localStorage b !! storageKey user = Some (Document (JArr (Stored.toJSON <$> stored))) ->
  mounted tz user b =
  {| page := {| reminders := withHandlesFrom (length (timers b)) stored;
                medName := ""; medTime := "" |};
     browser := withTimers (timers b ++ (armedFor tz (clock b) <$> stored)) b |}.
Proof.
  intros Hstored.
  unfold mounted, mount. unfold bind at 1.
  rewrite (loadEffect_persisted tz user stored b Hstored).
  unfold bind at 1. rewrite persistEffect_run.
  unfold commit. cbn [foldl applyUpdate existsb setsReminders orb].
  unfold bind at 1. rewrite persistEffect_run. unfold ret.
  cbn [reminders initialPage medName medTime].
  f_equal. unfold withStorage, withTimers. cbn.
  f_equal. rewrite insert_insert_eq.
  unfold persisted, JSON_stringify. rewrite rest_withHandlesFrom.
  now apply insert_id.
Qed.

Lemma armedFor_names_times (tz now : Z) (stored stored' : list Stored.t) :
  (fun r => (Stored.name r, Stored.time r)) <$> stored' =
  (fun r => (Stored.name r, Stored.time r)) <$> stored ->
  armedFor tz now <$> stored' = armedFor tz now <$> stored.
Proof.
  intros Heq.
  change (armedFor tz now) with
    ((fun nt : string * string => armed tz now (fst nt) (snd nt))
       ∘ (fun r => (Stored.name r, Stored.time r))).
  rewrite !list_fmap_compose. now rewrite Heq.
Qed.

Lemma loaded_timer (tz : Z) (ts : list Timer) (now : Z) (stored : list Stored.t)
    (i : nat) (r : Stored.t) :
  stored !! i = Some r ->
  (ts ++ (armedFor tz now <$> stored))%list !! (length ts + i)%nat = Some (armedFor tz now r).
Proof.
  intros Hi.
  rewrite lookup_app_r by lia.
  replace (length ts + i - length ts)%nat with i by lia.
  rewrite list_lookup_fmap, Hi. reflexivity.
Qed.

(** C4: mounting the page over a persisted list of N reminders arms
    exactly N timers behind those there already, the i-th for the i-th
    stored reminder; when the stored time is the text of a time of day
    (two digits, colon, two digits) its instant is the next occurrence
    counted from the clock at load time (today if not yet passed, else
    tomorrow); and the timers do not depend on the stored identifiers,
    which hold the creation instants. *)
Theorem load_arms_one_timer_per_stored_reminder
    (tz : Z) (user : string) (stored : list Stored.t) (b : Browser) :
  localStorage b !! storageKey user = Some (Document (JArr (Stored.toJSON <$> stored))) ->
  clockInRange (clock b) ->
  let s := mounted tz user b in
  length (timers (browser s)) = (length (timers b) + length stored)%nat /\
  take (length (timers b)) (timers (browser s)) = timers b /\
  length (reminders (page s)) = length stored /\
  (forall (i : nat) (r : Stored.t),
     stored !! i = Some r ->
     reminders (page s) !! i = Some (Stored.withTimeoutId r (length (timers b) + i)) /\
     exists t : Timer,
       timers (browser s) !! (length (timers b) + i)%nat = Some t /\
       status t = Pending /\
       callback t = Notify (Stored.name r) /\
       forall h m : Z,
         0 <= h < 24 -> 0 <= m < 60 ->
         Stored.time r = timeString h m ->
         fireAt t = nextOccurrence tz (clock b) h m) /\
  (forall (stored' : list Stored.t) (b' : Browser),
     clock b' = clock b -> timers b' = timers b ->
     localStorage b' !! storageKey user
       = Some (Document (JArr (Stored.toJSON <$> stored'))) ->
     (fun r => (Stored.name r, Stored.time r)) <$> stored' =
     (fun r => (Stored.name r, Stored.time r)) <$> stored ->
     timers (browser (mounted tz user b')) = timers (browser s)).
Proof.
  intros Hstored Hrange s. subst s.
  rewrite (mounted_persisted tz user stored b Hstored). cbn [page browser reminders].
  unfold withTimers; cbn [timers].
  split; [now rewrite length_app, length_fmap|].
  split; [now rewrite take_app_length|].
  split.
  { rewrite <- (length_fmap Reminder.timeoutId), withHandlesFrom_handles.
    apply length_seq. }
  split.
  - intros i r Hi. split.
    + rewrite withHandlesFrom_lookup, Hi. reflexivity.
    + exists (armedFor tz (clock b) r). split; [now apply loaded_timer|].
      split; [reflexivity|]. split; [reflexivity|].
      intros h m Hh Hm Htime. unfold armedFor.
      assert (Hhm : hoursMinutes (Stored.time r) = (Some h, Some m))
        by (rewrite Htime; now apply hoursMinutes_timeString).
      now rewrite (armed_fireAt tz (clock b) h m _ _ Hhm Hh Hm Hrange).
  - intros stored' b' Hclock Htimers Hstored' Hsame.
    rewrite (mounted_persisted tz user stored' b' Hstored'). cbn [browser].
    unfold withTimers; cbn [timers].
    rewrite Hclock, Htimers. f_equal. now apply armedFor_names_times.
Qed.

Lemma triples_of_rest (l1 l2 : list Reminder.t) :
  Stored.rest <$> l1 = Stored.rest <$> l2 -> tripleOf <$> l1 = tripleOf <$> l2.
Proof.
  intros Hrest.
  change tripleOf with
    ((fun st => (Stored.id st, Stored.name st, Stored.time st)) ∘ Stored.rest).
  rewrite !list_fmap_compose. now rewrite Hrest.
Qed.

(** C3: persisting a list of reminders and mounting the page again over
    what was written (in the same or in a later browser session) gives
    reminders with the same identifier, name and time, in the same order;
    each holds a handle that was not in use before the load, is held by no
    other reminder, and names a pending timer. *)
Theorem persist_then_load_roundtrip
    (tz : Z) (user : string) (p : ProfilePage) (b b' : Browser) :
  localStorage b' !! storageKey user
    = localStorage (snd (persistEffect user p b)) !! storageKey user ->
  let s := mounted tz user b' in
  tripleOf <$> reminders (page s) = tripleOf <$> reminders p /\
  Forall (fun r => (length (timers b') <= Reminder.timeoutId r)%nat /\
                   pendingTimer (browser s) (Reminder.timeoutId r) = true)
         (reminders (page s)) /\
  NoDup (Reminder.timeoutId <$> reminders (page s)).
Proof.
  intros Hsame s. subst s.
  rewrite persistEffect_run in Hsame. cbn [snd withStorage localStorage] in Hsame.
  rewrite lookup_insert_eq in Hsame. unfold persisted, JSON_stringify in Hsame.
  rewrite (mounted_persisted tz user _ b' Hsame). cbn [page browser reminders].
  split; [apply triples_of_rest, rest_withHandlesFrom|]. split.
  - apply Forall_lookup_2. intros i r Hi.
    rewrite withHandlesFrom_lookup in Hi.
    destruct ((Stored.rest <$> reminders p) !! i) as [r0|] eqn:Hr0; [|discriminate].
    injection Hi as <-. cbn [Stored.withTimeoutId Reminder.timeoutId].
    split; [lia|].
    unfold pendingTimer, withTimers; cbn [timers].
    now rewrite (loaded_timer tz _ _ _ i r0 Hr0).
  - rewrite withHandlesFrom_handles. apply NoDup_seq.
Qed.

(** ** Adding *)

Lemma truthy_nonempty (v : string) : v <> "" -> JsString.truthy v = true.
Proof. destruct v; [congruence | reflexivity]. Qed.

Lemma step_add_run (tz : Z) (user : string) (s : State) :
  JsString.truthy (medName (page s)) = true ->
  JsString.truthy (medTime (page s)) = true ->
  step tz user SubmitAddReminder s =
  let rs := (reminders (page s) ++ [newReminderOf (page s) (browser s)])%list in
  {| page := {| reminders := rs; medName := ""; medTime := "" |};
     browser :=
       withStorage
         (<[storageKey user := persisted rs]> (localStorage (browser s)))
         (withTimers
            (timers (browser s)
               ++ [armed tz (clock (browser s)) (medName (page s)) (medTime (page s))])
            (browser s)) |}.
Proof.
  intros Hname Htime.
  unfold step, handle, addReminder. rewrite Hname, Htime. cbn [negb orb].
  unfold bind at 1. rewrite schedule_run. reflexivity.
Qed.


(** C7: submitting the form with an empty name or an empty time changes
    nothing: no timer, the same reminders, the same fields, the same
    storage. *)
Theorem addReminder_rejects_empty_fields (tz : Z) (user : string) (s : State) :
  medName (page s) = "" \/ medTime (page s) = "" ->
  step tz user SubmitAddReminder s = s.
Proof.
  intros Hempty.
  unfold step, handle, addReminder.
  assert (Hguard : negb (JsString.truthy (medName (page s)))
                   || negb (JsString.truthy (medTime (page s))) = true).
  { destruct Hempty as [-> | ->]; [reflexivity | apply orb_true_r]. }
  rewrite Hguard. destruct s; reflexivity.
Qed.


(** ** Removing *)

Lemma step_delete_run (tz : Z) (user : string) (id : Z) (s : State) :
  step tz user (ClickDelete id) s =
  let rs := without id (reminders (page s)) in
  let b :=
    match List.find (fun r => Z.eqb (Reminder.id r) id) (reminders (page s)) with
    | Some r => withTimers (alter cancel (Reminder.timeoutId r) (timers (browser s)))
                           (browser s)
    | None => browser s
    end in
  {| page := {| reminders := rs; medName := medName (page s);
                medTime := medTime (page s) |};
     browser := withStorage (<[storageKey user := persisted rs]> (localStorage b)) b |}.
Proof.
  unfold step, handle, removeReminder, bind.
  destruct (List.find _ (reminders (page s))) as [r|]; reflexivity.
Qed.

Lemma find_absent (id : Z) (rs : list Reminder.t) :
  (forall r, r ∈ rs -> Reminder.id r <> id) ->
  List.find (fun r => Z.eqb (Reminder.id r) id) rs = None.
Proof.
  induction rs as [|r rs IH]; intros Habsent; [reflexivity|].
  cbn. destruct (Z.eqb_spec (Reminder.id r) id) as [Heq|_].
  - exfalso. apply (Habsent r); [left | exact Heq].
  - apply IH. intros r' Hin. apply Habsent. now right.
Qed.

Lemma without_absent (id : Z) (rs : list Reminder.t) :
  (forall r, r ∈ rs -> Reminder.id r <> id) -> without id rs = rs.
Proof.
  induction rs as [|r rs IH]; intros Habsent; [reflexivity|].
  unfold without in *. cbn.
  destruct (Z.eqb_spec (Reminder.id r) id) as [Heq|_].
  - exfalso. apply (Habsent r); [left | exact Heq].
  - cbn. f_equal. apply IH. intros r' Hin. apply Habsent. now right.
Qed.

(** C6: deleting an identifier that no reminder carries leaves the
    page as it is (same reminders in the same order, same fields) and
    leaves the timer table, the clock and the notifications as they are.
    When the stored document was in step with the reminders, the whole
    state is unchanged.  The handler itself returns normally, without
    throwing: it leaves the browser as it is and queues the same list of
    reminders. *)
Theorem removeReminder_unknown_id_is_noop
    (tz : Z) (user : string) (id : Z) (s : State) :
  (forall r, r ∈ reminders (page s) -> Reminder.id r <> id) ->
  let s' := step tz user (ClickDelete id) s in
  page s' = page s /\
  reminders (page s') = reminders (page s) /\
  timers (browser s') = timers (browser s) /\
  clock (browser s') = clock (browser s) /\
  alerts (browser s') = alerts (browser s) /\
  spoken (browser s') = spoken (browser s) /\
  (localStorage (browser s) !! storageKey user = Some (persisted (reminders (page s))) ->
   s' = s) /\
  removeReminder id (page s) (browser s)
    = (Some [SetReminders (reminders (page s))], browser s).
Proof.
  intros Habsent s'. subst s'.
  rewrite step_delete_run.
  rewrite (find_absent id _ Habsent), (without_absent id _ Habsent).
  cbn [page browser reminders]. unfold withStorage; cbn.
  split; [destruct s as [[rs n t] b]; reflexivity|].
  do 5 (split; [reflexivity|]).
  split.
  - intros Hsync. rewrite (insert_id _ _ _ Hsync).
    destruct s as [[rs n t] [c ts ls al sp]]; reflexivity.
  - unfold removeReminder, bind. rewrite (find_absent id _ Habsent).
    fold (without id (reminders (page s))).
    now rewrite (without_absent id _ Habsent).
Qed.

Lemma find_present (id : Z) (rs : list Reminder.t) (r : Reminder.t) :
  r ∈ rs -> Reminder.id r = id ->
  exists r0, List.find (fun r => Z.eqb (Reminder.id r) id) rs = Some r0 /\
             r0 ∈ rs /\ Reminder.id r0 = id.
Proof.
  induction rs as [|x rs IH]; intros Hin Hid.
  - inversion Hin.
  - cbn. destruct (Z.eqb_spec (Reminder.id x) id) as [Hx|Hx].
    + exists x. split; [reflexivity|]. split; [left | exact Hx].
    + apply elem_of_cons in Hin as [->|Hin]; [contradiction|].
      destruct (IH Hin Hid) as (r0 & Hfind & Hr0 & Hid0).
      exists r0. split; [exact Hfind|]. split; [now right | exact Hid0].
Qed.

Lemma unique_id (rs : list Reminder.t) (x y : Reminder.t) :
  NoDup (Reminder.id <$> rs) -> x ∈ rs -> y ∈ rs ->
  Reminder.id x = Reminder.id y -> x = y.
Proof.
  induction rs as [|r rs IH]; intros Hnodup Hx Hy Hid.
  - inversion Hx.
  - cbn in Hnodup. apply NoDup_cons in Hnodup as [Hnotin Hnodup].
    apply elem_of_cons in Hx as [->|Hx]; apply elem_of_cons in Hy as [->|Hy].
    + reflexivity.
    + exfalso. apply Hnotin. rewrite Hid. now apply list_elem_of_fmap_2.
    + exfalso. apply Hnotin. rewrite <- Hid. now apply list_elem_of_fmap_2.
    + now apply IH.
Qed.

Lemma pendingTimer_cancelled (handle : nat) (b : Browser) :
  pendingTimer (withTimers (alter cancel handle (timers b)) b) handle = false.
Proof.
  unfold pendingTimer, withTimers; cbn [timers].
  rewrite list_lookup_alter_eq.
  destruct (timers b !! handle) as [t|]; [|reflexivity].
  cbn. unfold cancel. destruct t as [f c []]; reflexivity.
Qed.

Lemma without_spec (id : Z) (rs : list Reminder.t) (r : Reminder.t) :
  r ∈ without id rs <-> r ∈ rs /\ Reminder.id r <> id.
Proof.
  unfold without. rewrite !list_elem_of_In, filter_In.
  rewrite negb_true_iff, Z.eqb_neq. reflexivity.
Qed.

Lemma pendingFor_zero (b : Browser) (rs : list Reminder.t) (id : Z) :
  (forall r, r ∈ rs -> Reminder.id r = id ->
             pendingTimer b (Reminder.timeoutId r) = false) ->
  pendingFor b rs id = 0%nat.
Proof.
  intros Hnone. unfold pendingFor.
  induction rs as [|r rs IH]; [reflexivity|].
  cbn. destruct (Z.eqb_spec (Reminder.id r) id) as [Hid|Hid]; cbn.
  - rewrite (Hnone r); [|left|exact Hid].
    apply IH. intros r' Hin. apply Hnone. now right.
  - apply IH. intros r' Hin. apply Hnone. now right.
Qed.

(** C5, evaluated: "Aspirin" is added at 08:00 for 09:00 and the user
    leaves the profile page and comes back; the page then shows the one
    reminder, holding timer 1 of this visit, while timer 0 of the first
    visit is still pending.  Deleting the reminder empties the page and the
    stored list and cancels timer 1 only: timer 0 stays pending and an hour
    later announces the deleted reminder.  Likewise, with two reminders
    under one identifier, the delete removes both and cancels only the
    timer of the first. *)
Theorem deleted_reminder_is_still_announced :
  reminders (page aspirinRevisited) = [Stored.withTimeoutId (Stored.rest aspirin) 1] /\
  reminders (page aspirinDeletedAfterRevisit) = [] /\
  localStorage (browser aspirinDeletedAfterRevisit) !! storageKey "asha"
    = Some (Document (JArr [])) /\
  timers (browser aspirinDeletedAfterRevisit)
    = [{| fireAt := eightOClock + JsDate.msPerHour; callback := Notify "Aspirin";
          status := Pending |};
       {| fireAt := eightOClock + JsDate.msPerHour; callback := Notify "Aspirin";
          status := Cancelled |}] /\
  reminders (page aspirinAnnouncedAfterDelete) = [] /\
  alerts (browser aspirinAnnouncedAfterDelete) = ["Time to take your Aspirin!"] /\
  spoken (browser aspirinAnnouncedAfterDelete) = ["Time to take your Aspirin!"] /\
  reminders (page aspirinTwice) = [aspirin; eveningAspirin] /\
  reminders (page aspirinTwiceDeleted) = [] /\
  status <$> timers (browser aspirinTwiceDeleted) = [Cancelled; Pending].
Proof. vm_compute. repeat split. Qed.

(** ** Persisting *)






(** ** Logging in *)

(** C10: the outcome of a login submission does not depend on the
    password, whatever the [onLogin] prop is; with the application's own
    [handleLogin], the submission logs in exactly when the trimmed user
    name is not empty, and the identity it sets is the trimmed user name. *)
Theorem login_outcome_ignores_password (u p1 p2 : string) :
  (forall (A : Type) (onLogin : string -> A -> A) (a : A),
     handleSubmit onLogin {| username := u; password := p1 |} a
     = handleSubmit onLogin {| username := u; password := p2 |} a) /\
  (forall a : App,
     handleSubmit handleLogin {| username := u; password := p1 |} a
     = if JsString.truthy (JsString.trim u)
       then handleLogin (JsString.trim u) a else a) /\
  (forall a : App,
     currentUser (handleSubmit handleLogin {| username := u; password := p1 |} a)
     = if JsString.truthy (JsString.trim u)
       then Some (JsString.trim u) else currentUser a) /\
  (JsString.truthy (JsString.trim u) = true <-> JsString.trim u <> "").
Proof.
  split; [reflexivity|]. split; [reflexivity|]. split.
  - intros a. unfold handleSubmit; cbn [username].
    destruct (JsString.truthy (JsString.trim u)); reflexivity.
  - destruct (JsString.trim u); cbn; split; congruence.
Qed.

(** ** A reminder whose timer has fired *)

(** C2, evaluated: at 08:00 "Aspirin" is added for 09:00 and holds the one
    pending timer; an hour later the timer fires and notifies; the reminder
    is still in the collection, and no timer at all is pending. *)
Theorem fired_reminder_keeps_no_pending_timer :
  reminders (page aspirinAdded) = [aspirin] /\
  pendingFor (browser aspirinAdded) (reminders (page aspirinAdded)) eightOClock = 1%nat /\
  reminders (page aspirinFired) = reminders (page aspirinAdded) /\
  alerts (browser aspirinFired) = ["Time to take your Aspirin!"] /\
  timers (browser aspirinFired)
    = [{| fireAt := eightOClock + JsDate.msPerHour; callback := Notify "Aspirin";
          status := Fired |}] /\
  pendingFor (browser aspirinFired) (reminders (page aspirinFired)) eightOClock = 0%nat.
Proof. vm_compute. repeat split. Qed.

(** Mounting the page again arms a second timer for the stored reminder;
    the reminder holds the new handle and the timer of the first mount stays
    pending. *)
Example remount_leaves_earlier_timer_pending :
  reminders (page aspirinRevisited)
    = [Stored.withTimeoutId (Stored.rest aspirin) 1] /\
  timers (browser aspirinRevisited)
    = [{| fireAt := eightOClock + JsDate.msPerHour; callback := Notify "Aspirin";
          status := Pending |};
       {| fireAt := eightOClock + JsDate.msPerHour; callback := Notify "Aspirin";
          status := Pending |}].
Proof. vm_compute. split; reflexivity. Qed.

(** ** Reachable states keep their handles valid *)

Lemma reschedule_run (tz : Z) (item : JSON) (b : Browser) :
  reschedule tz item b =
  match Stored.decode item with
  | Some r => (Some (Stored.withTimeoutId r (length (timers b))),
               withTimers (timers b ++ [armedFor tz (clock b) r]) b)
  | None => (None, b)
  end.
Proof.
  unfold reschedule, Stored.ofJSON, bind.
  destruct (Stored.decode item) as [r|]; [|reflexivity].
  unfold ret at 1. rewrite schedule_run. reflexivity.
Qed.

Lemma mapM_reschedule_handles (tz : Z) (items : list JSON) :
  forall (b b' : Browser) (rs : list Reminder.t),
    mapM (reschedule tz) items b = (Some rs, b') ->
    Reminder.timeoutId <$> rs = seq (length (timers b)) (length rs) /\
    length (timers b') = (length (timers b) + length rs)%nat.
Proof.
  induction items as [|item items IH]; intros b b' rs Hrun.
  - cbn in Hrun. injection Hrun as <- <-. cbn. split; [reflexivity | lia].
  - cbn [mapM] in Hrun. unfold bind at 1 in Hrun. rewrite reschedule_run in Hrun.
    destruct (Stored.decode item) as [r|]; [|discriminate Hrun].
    unfold bind at 1 in Hrun.
    destruct (mapM (reschedule tz) items
                (withTimers (timers b ++ [armedFor tz (clock b) r]) b))
      as [[rs'|] b1] eqn:Hrest; [|discriminate Hrun].
    injection Hrun as <- <-.
    destruct (IH _ _ _ Hrest) as [Hhandles Hlen].
    unfold withTimers in Hhandles, Hlen; cbn [timers] in Hhandles, Hlen.
    rewrite length_app in Hhandles, Hlen. cbn [length] in Hhandles, Hlen.
    rewrite Nat.add_1_r in Hhandles. cbn.
    split; [now rewrite Hhandles | lia].
Qed.

Lemma loadEffect_result (tz : Z) (user : string) (b : Browser) :
  exists b' : Browser,
    loadEffect tz user b = (Some [], b') \/
    exists rs : list Reminder.t,
      loadEffect tz user b = (Some [SetReminders rs], b') /\
      Reminder.timeoutId <$> rs = seq (length (timers b)) (length rs) /\
      length (timers b') = (length (timers b) + length rs)%nat.
Proof.
  unfold loadEffect, loadBody, bind, getItem.
  destruct (textPresent (localStorage b !! storageKey user)) as [[v|j]|].
  - exists b. left. reflexivity.
  - destruct j as [|n|v|items|props]; try (exists b; left; reflexivity).
    cbn [JSON_parse Stored.items ret].
    destruct (mapM (reschedule tz) items b) as [[rs|] b'] eqn:Hrun.
    + exists b'. right. exists rs. split; [reflexivity|].
      exact (mapM_reschedule_handles tz items b b' rs Hrun).
    + exists b'. left. reflexivity.
  - exists b. left. reflexivity.
Qed.

Lemma seq_handles_valid (rs : list Reminder.t) (base n : nat) :
  Reminder.timeoutId <$> rs = seq base (length rs) ->
  (base + length rs <= n)%nat ->
  NoDup (Reminder.timeoutId <$> rs) /\
  Forall (fun r => (Reminder.timeoutId r < n)%nat) rs.
Proof.
  intros Hseq Hn. split.
  - rewrite Hseq. apply NoDup_seq.
  - apply Forall_forall. intros r Hin.
    assert (Hh : Reminder.timeoutId r ∈ seq base (length rs)).
    { rewrite <- Hseq. now apply list_elem_of_fmap_2. }
    apply elem_of_seq in Hh. lia.
Qed.

Lemma mounted_handlesValid (tz : Z) (user : string) (b : Browser) :
  handlesValid (mounted tz user b).
Proof.
  unfold mounted, mount. unfold bind at 1.
  destruct (loadEffect_result tz user b) as (b' & [Hload | (rs & Hload & Hseq & Hlen)]);
    rewrite Hload; unfold bind at 1; rewrite persistEffect_run.
  - cbn. split; [apply NoDup_nil_2 | apply Forall_nil_2].
  - unfold commit. cbn [foldl applyUpdate existsb setsReminders orb].
    unfold bind at 1. rewrite persistEffect_run. unfold ret.
    unfold handlesValid, withStorage; cbn [page browser reminders timers].
    apply (seq_handles_valid rs (length (timers b))); [exact Hseq | lia].
Qed.

Lemma step_handlesValid (tz : Z) (user : string) (e : Event) (s : State) :
  handlesValid s -> handlesValid (step tz user e s).
Proof.
  intros [Hnodup Hvalid].
  destruct e as [v|v| |id|h|ms].
  - exact (conj Hnodup Hvalid).
  - exact (conj Hnodup Hvalid).
  - cbn [step]. unfold handle, addReminder.
    destruct (negb (JsString.truthy (medName (page s)))
              || negb (JsString.truthy (medTime (page s)))).
    + exact (conj Hnodup Hvalid).
    + unfold bind at 1. rewrite schedule_run.
      unfold handlesValid; cbn. rewrite fmap_app, length_app. cbn. split.
      * apply NoDup_app. split; [exact Hnodup|]. split.
        -- intros x Hx Hnew. apply list_elem_of_singleton in Hnew. subst x.
           apply list_elem_of_fmap in Hx as (r & Hr & Hin).
           rewrite Forall_forall in Hvalid. specialize (Hvalid r Hin). lia.
        -- apply NoDup_singleton.
      * apply Forall_app. split.
        -- eapply Forall_impl; [exact Hvalid|]. cbn. intros r Hr. lia.
        -- apply Forall_singleton. cbn. lia.
  - rewrite step_delete_run. unfold handlesValid; cbn [page browser reminders].
    assert (Hlen : length (timers
              match List.find (fun r => Reminder.id r =? id) (reminders (page s)) with
              | Some r => withTimers (alter cancel (Reminder.timeoutId r)
                                        (timers (browser s))) (browser s)
              | None => browser s
              end) = length (timers (browser s))).
    { destruct (List.find _ _); [apply length_alter | reflexivity]. }
    unfold withStorage; cbn [timers]. rewrite Hlen.
    unfold without. split.
    + clear Hvalid Hlen. induction (reminders (page s)) as [|r rs IH]; [exact Hnodup|].
      cbn in Hnodup. apply NoDup_cons in Hnodup as [Hnotin Hnodup].
      cbn. destruct (negb (Reminder.id r =? id)); [|now apply IH].
      cbn. apply NoDup_cons. split; [|now apply IH].
      intros Hin. apply Hnotin.
      apply list_elem_of_fmap in Hin as (r' & Hr' & Hin).
      apply list_elem_of_In, filter_In in Hin as [Hin _].
      apply list_elem_of_fmap. exists r'. split; [exact Hr' | now apply list_elem_of_In].
    + apply Forall_forall. intros r Hin.
      apply list_elem_of_In, filter_In in Hin as [Hin _].
      rewrite Forall_forall in Hvalid. apply Hvalid. now apply list_elem_of_In.
  - cbn [step]. unfold handlesValid; cbn [page browser].
    split; [exact Hnodup|].
    assert (Hlen : length (timers (snd (fireTimer h (browser s))))
                   = length (timers (browser s))).
    { unfold fireTimer.
      destruct (timers (browser s) !! h) as [t|]; [|reflexivity].
      destruct (status t); try reflexivity.
      destruct (fireAt t <=? clock (browser s)); [|reflexivity].
      destruct (callback t). cbn. apply length_insert. }
    now rewrite Hlen.
  - exact (conj Hnodup Hvalid).
Qed.

(** In every reachable state each reminder holds a timer of its own. *)
Lemma reachable_handlesValid (tz : Z) (user : string) (s : State) :
  reachable tz user s -> handlesValid s.
Proof.
  induction 1 as [b | e s _ IH].
  - apply mounted_handlesValid.
  - now apply step_handlesValid.
Qed.

(** ** The theorems at work on the Aspirin session *)


Lemma addReminder_rejects_empty_fields_witness :
  step istOffset "asha" SubmitAddReminder
       (mounted istOffset "asha" (freshBrowser eightOClock))
  = mounted istOffset "asha" (freshBrowser eightOClock).
Proof.
  apply addReminder_rejects_empty_fields. left. reflexivity.
Defined.

Lemma persist_then_load_roundtrip_witness :
  tripleOf <$> reminders (page (mounted istOffset "asha" laterSession))
    = [(eightOClock, "Aspirin", "09:00")] /\
  NoDup (Reminder.timeoutId <$> reminders (page (mounted istOffset "asha" laterSession))).
Proof.
  assert (Hsame :
    localStorage laterSession !! storageKey "asha"
    = localStorage (snd (persistEffect "asha" (page aspirinAdded) (browser aspirinAdded)))
        !! storageKey "asha") by (vm_compute; reflexivity).
  destruct (persist_then_load_roundtrip istOffset "asha" (page aspirinAdded)
              (browser aspirinAdded) laterSession Hsame) as (Htriples & _ & Hnodup).
  split; [exact Htriples | exact Hnodup].
Defined.

Lemma load_arms_one_timer_per_stored_reminder_witness :
  reminders (page (mounted istOffset "asha" laterSession))
    = [Stored.withTimeoutId (Stored.rest aspirin) 0] /\
  timers (browser (mounted istOffset "asha" laterSession))
    = [{| fireAt := eightOClock + 25 * JsDate.msPerHour; callback := Notify "Aspirin";
          status := Pending |}].
Proof.
  assert (Hstored :
    localStorage laterSession !! storageKey "asha"
    = Some (Document (JArr (Stored.toJSON <$> [Stored.rest aspirin]))))
    by (vm_compute; reflexivity).
  assert (Hrange : clockInRange (clock laterSession)) by (vm_compute; discriminate).
  destruct (load_arms_one_timer_per_stored_reminder istOffset "asha"
              [Stored.rest aspirin] laterSession Hstored Hrange)
    as (Hlen & _ & Hrs & Hith & _).
  destruct (Hith 0%nat (Stored.rest aspirin) eq_refl) as (Hr & t & Ht & Hst & Hcb & Hat).
  specialize (Hat 9 0 ltac:(lia) ltac:(lia) eq_refl).
  split.
  - destruct (reminders (page (mounted istOffset "asha" laterSession))) as [|r [|r' rs]];
      [discriminate Hr | | discriminate Hrs].
    cbn in Hr. injection Hr as ->. reflexivity.
  - destruct (timers (browser (mounted istOffset "asha" laterSession))) as [|t0 [|t1 ts]];
      [discriminate Ht | | discriminate Hlen].
    cbn in Ht. injection Ht as ->.
    destruct t as [f c st]. cbn in Hst, Hcb, Hat. subst f c st.
    reflexivity.
Defined.

Lemma removeReminder_unknown_id_is_noop_witness :
  step istOffset "asha" (ClickDelete 5) aspirinAdded = aspirinAdded.
Proof.
  assert (Habsent : forall r, r ∈ reminders (page aspirinAdded) -> Reminder.id r <> 5).
  { change (forall r, r ∈ [aspirin] -> Reminder.id r <> 5).
    intros r Hin. apply list_elem_of_singleton in Hin. subst r.
    vm_compute. discriminate. }
  destruct (removeReminder_unknown_id_is_noop istOffset "asha" 5 aspirinAdded Habsent)
    as (_ & _ & _ & _ & _ & _ & Hsync & _).
  apply Hsync. vm_compute. reflexivity.
Defined.


(** * Further properties of the profile page *)

(** ** The delay *)



(** ** Mounting over any storage *)

Lemma mapM_reschedule_frame (tz : Z) (items : list JSON) :
  forall b : Browser,
    exists extra : list Timer,
      snd (mapM (reschedule tz) items b) = withTimers (timers b ++ extra) b /\
      Forall (fun t => status t = Pending) extra.
Proof.
  induction items as [|item items IH]; intros b.
  - exists []. cbn. rewrite app_nil_r. split; [now destruct b | constructor].
  - cbn [mapM]. unfold bind at 1. rewrite reschedule_run.
    destruct (Stored.decode item) as [r|].
    + unfold bind at 1.
      destruct (IH (withTimers (timers b ++ [armedFor tz (clock b) r]) b))
        as (extra & Hsnd & Hpending).
      destruct (mapM (reschedule tz) items
                  (withTimers (timers b ++ [armedFor tz (clock b) r]) b))
        as [[rs|] b1]; cbn [snd] in Hsnd; subst b1;
        exists (armedFor tz (clock b) r :: extra); cbn [snd];
        (split; [unfold withTimers; cbn; now rewrite <- app_assoc
                | constructor; [reflexivity | exact Hpending]]).
    + exists []. cbn. rewrite app_nil_r. split; [now destruct b | constructor].
Qed.

Lemma loadEffect_frame (tz : Z) (user : string) (b : Browser) :
  exists extra : list Timer,
    snd (loadEffect tz user b) = withTimers (timers b ++ extra) b /\
    Forall (fun t => status t = Pending) extra.
Proof.
  assert (Hnone : exists extra : list Timer,
             b = withTimers (timers b ++ extra) b /\
             Forall (fun t => status t = Pending) extra).
  { exists []. rewrite app_nil_r. split; [now destruct b | constructor]. }
  unfold loadEffect, loadBody, bind, getItem.
  destruct (textPresent (localStorage b !! storageKey user)) as [[v|j]|];
    [exact Hnone | | exact Hnone].
  destruct j as [|n|v|items|props]; try exact Hnone.
  cbn [JSON_parse Stored.items ret].
  destruct (mapM_reschedule_frame tz items b) as (extra & Hsnd & Hpending).
  destruct (mapM (reschedule tz) items b) as [[rs|] b']; cbn [snd] in Hsnd |- *;
    exists extra; split; assumption.
Qed.

(** What mounting comes to: the load effect leaves a browser [b'], then
    either nothing was queued and the page is empty over a stored [[]], or
    the loaded reminders are on the page and in the stored document. *)
Lemma mounted_result (tz : Z) (user : string) (b : Browser) :
  exists (b' : Browser) (rs : list Reminder.t),
    snd (loadEffect tz user b) = b' /\
    mounted tz user b =
    {| page := {| reminders := rs; medName := ""; medTime := "" |};
       browser := withStorage (<[storageKey user := persisted rs]> (localStorage b')) b' |}.
Proof.
  unfold mounted, mount. unfold bind at 1.
  destruct (loadEffect_result tz user b) as (b' & [Hload | (rs & Hload & _)]);
    rewrite Hload; unfold bind at 1; rewrite persistEffect_run.
  - exists b', []. split; [reflexivity|]. reflexivity.
  - exists b', rs. split; [reflexivity|].
    unfold commit. cbn [foldl applyUpdate existsb setsReminders orb].
    unfold bind at 1. rewrite persistEffect_run. unfold ret.
    cbn [reminders initialPage medName medTime].
    f_equal. unfold withStorage; cbn. f_equal. apply insert_insert_eq.
Qed.

Lemma mounted_inSync (tz : Z) (user : string) (b : Browser) :
  inSync user (mounted tz user b).
Proof.
  destruct (mounted_result tz user b) as (b' & rs & _ & ->).
  unfold inSync, withStorage; cbn. apply lookup_insert_eq.
Qed.

Lemma step_inSync (tz : Z) (user : string) (e : Event) (s : State) :
  inSync user s -> inSync user (step tz user e s).
Proof.
  intros Hsync.
  destruct e as [v|v| |id|h|ms].
  - exact Hsync.
  - exact Hsync.
  - cbn [step]. unfold handle, addReminder.
    destruct (negb (JsString.truthy (medName (page s)))
              || negb (JsString.truthy (medTime (page s)))).
    + exact Hsync.
    + unfold bind at 1. rewrite schedule_run.
      unfold inSync; cbn. apply lookup_insert_eq.
  - rewrite step_delete_run. unfold inSync, withStorage; cbn.
    apply lookup_insert_eq.
  - cbn [step]. unfold inSync in *; cbn [page browser].
    assert (Hsame : localStorage (snd (fireTimer h (browser s)))
                    = localStorage (browser s)).
    { unfold fireTimer.
      destruct (timers (browser s) !! h) as [t|]; [|reflexivity].
      destruct (status t); try reflexivity.
      destruct (fireAt t <=? clock (browser s)); [|reflexivity].
      destruct (callback t). reflexivity. }
    now rewrite Hsame.
  - exact Hsync.
Qed.

Lemma reachable_inSync (tz : Z) (user : string) (s : State) :
  reachable tz user s -> inSync user s.
Proof.
  induction 1 as [b | e s _ IH].
  - apply mounted_inSync.
  - now apply step_inSync.
Qed.

Lemma loadEffect_unreadable (tz : Z) (user : string) (b : Browser) :
  unreadable (localStorage b !! storageKey user) = true ->
  loadEffect tz user b = (Some [], b).
Proof.
  intros Hbad.
  unfold loadEffect, loadBody, bind, getItem.
  destruct (localStorage b !! storageKey user) as [[v|j]|]; cbn [textPresent].
  - destruct (JsString.truthy v); reflexivity.
  - destruct j; try reflexivity. discriminate Hbad.
  - reflexivity.
Qed.

(** X4: when nothing is stored under the user's key, or what is stored is
    not a JSON document or not an array, mounting shows no reminders with
    empty fields, arms no timer, and replaces the stored entry by the empty
    list. *)
Theorem mount_over_unreadable_storage_resets_it
    (tz : Z) (user : string) (b : Browser) :
  unreadable (localStorage b !! storageKey user) = true ->
  mounted tz user b =
  {| page := initialPage;
     browser := withStorage
                  (<[storageKey user := Document (JArr [])]> (localStorage b)) b |}.
Proof.
  intros Hbad.
  unfold mounted, mount. unfold bind at 1.
  rewrite (loadEffect_unreadable tz user b Hbad).
  unfold bind at 1. rewrite persistEffect_run. reflexivity.
Qed.

Lemma decode_notAnObject (j : JSON) : notAnObject j = true -> Stored.decode j = None.
Proof. destruct j; [reflexivity.. | discriminate]. Qed.

Lemma mapM_reschedule_stops (tz : Z) (good : list Stored.t) (bad : JSON) (others : list JSON) :
  notAnObject bad = true ->
  forall b : Browser,
    mapM (reschedule tz) ((Stored.toJSON <$> good) ++ bad :: others)%list b
    = (None, withTimers (timers b ++ (armedFor tz (clock b) <$> good)) b).
Proof.
  intros Hbad.
  induction good as [|r good IH]; intros b.
  - cbn [fmap list_fmap app mapM]. unfold bind at 1. rewrite reschedule_run.
    rewrite (decode_notAnObject bad Hbad). rewrite app_nil_r. now destruct b.
  - cbn [fmap list_fmap app mapM]. unfold bind at 1. rewrite reschedule_run.
    assert (Hdec : Stored.decode (Stored.toJSON r) = Some r) by (destruct r; reflexivity).
    rewrite Hdec. unfold bind at 1.
    change (list_fmap Stored.t JSON Stored.toJSON good) with (Stored.toJSON <$> good).
    rewrite IH. unfold withTimers; cbn. now rewrite <- app_assoc.
Qed.

(** X5: when the stored array holds, after some well-formed reminders, an
    item that is not an object, the load effect stops there: the page shows
    no reminders at all, the stored list is replaced by the empty list, and
    the timers armed for the reminders before the bad item stay pending,
    held by no reminder. *)
Theorem mount_over_array_with_bad_item
    (tz : Z) (user : string) (good : list Stored.t) (bad : JSON)
    (others : list JSON) (b : Browser) :
  localStorage b !! storageKey user
    = Some (Document (JArr ((Stored.toJSON <$> good) ++ bad :: others)%list)) ->
  notAnObject bad = true ->
  mounted tz user b =
  {| page := initialPage;
     browser :=
       withStorage
         (<[storageKey user := Document (JArr [])]> (localStorage b))
         (withTimers (timers b ++ (armedFor tz (clock b) <$> good)) b) |}.
Proof.
  intros Hstored Hbad.
  unfold mounted, mount. unfold bind at 1.
  assert (Hload : loadEffect tz user b
                  = (Some [], withTimers (timers b ++ (armedFor tz (clock b) <$> good)) b)).
  { unfold loadEffect, loadBody, bind, getItem. rewrite Hstored.
    cbn [textPresent JSON_parse Stored.items ret].
    now rewrite (mapM_reschedule_stops tz good bad others Hbad b). }
  rewrite Hload. unfold bind at 1. rewrite persistEffect_run. reflexivity.
Qed.

(** ** Submitting and deleting twice *)

Lemma step_add_rejected (tz : Z) (user : string) (s : State) :
  negb (JsString.truthy (medName (page s)))
  || negb (JsString.truthy (medTime (page s))) = true ->
  step tz user SubmitAddReminder s = s.
Proof.
  intros Hguard. unfold step, handle, addReminder. rewrite Hguard.
  destruct s; reflexivity.
Qed.

(** X6: submitting the form a second time right after a submission changes
    nothing: a reminder is added at most once per filling of the form,
    because a successful submission empties both fields. *)
Theorem addReminder_twice_adds_once (tz : Z) (user : string) (s : State) :
  step tz user SubmitAddReminder (step tz user SubmitAddReminder s)
  = step tz user SubmitAddReminder s.
Proof.
  destruct (negb (JsString.truthy (medName (page s)))
            || negb (JsString.truthy (medTime (page s)))) eqn:Hguard.
  - now rewrite !(step_add_rejected tz user s Hguard).
  - apply orb_false_elim in Hguard as [Hname Htime].
    apply negb_false_iff in Hname, Htime.
    rewrite (step_add_run tz user s Hname Htime).
    apply step_add_rejected. reflexivity.
Qed.

Lemma without_without (id : Z) (rs : list Reminder.t) :
  without id (without id rs) = without id rs.
Proof.
  apply without_absent. intros r Hin. now apply without_spec in Hin as [_ Hne].
Qed.

(** X7: deleting the same identifier twice is the same as deleting it
    once, in any state and whether or not a reminder carries it. *)
Theorem removeReminder_twice_is_once (tz : Z) (user : string) (id : Z) (s : State) :
  step tz user (ClickDelete id) (step tz user (ClickDelete id) s)
  = step tz user (ClickDelete id) s.
Proof.
  rewrite (step_delete_run tz user id (step tz user (ClickDelete id) s)).
  rewrite (step_delete_run tz user id s).
  cbn [page browser reminders medName medTime].
  rewrite without_without.
  rewrite (find_absent id (without id (reminders (page s)))).
  2:{ intros r Hin. now apply without_spec in Hin as [_ Hne]. }
  cbn zeta. f_equal. unfold withStorage; cbn. f_equal. apply insert_insert_eq.
Qed.

(** ** The timer table over time *)

Lemma continues_refl (ts : list Timer) : continues ts ts.
Proof. intros h t Ht. exists t. split; [exact Ht | now repeat split]. Qed.

Lemma continues_trans (ts1 ts2 ts3 : list Timer) :
  continues ts1 ts2 -> continues ts2 ts3 -> continues ts1 ts3.
Proof.
  intros H12 H23 h t Ht.
  destruct (H12 h t Ht) as (t2 & Ht2 & Hf2 & Hc2 & Hs2).
  destruct (H23 h t2 Ht2) as (t3 & Ht3 & Hf3 & Hc3 & Hs3).
  exists t3. split; [exact Ht3|]. split; [congruence|]. split; [congruence|].
  intros Hnp. rewrite <- (Hs2 Hnp). apply Hs3. now rewrite (Hs2 Hnp).
Qed.

Lemma continues_app (ts extra : list Timer) : continues ts (ts ++ extra).
Proof.
  intros h t Ht. exists t. split; [now apply lookup_app_l_Some|].
  now repeat split.
Qed.

Lemma continues_alter_cancel (ts : list Timer) (handle : nat) :
  continues ts (alter cancel handle ts).
Proof.
  intros h t Ht. destruct (decide (handle = h)) as [->|Hne].
  - exists (cancel t). rewrite list_lookup_alter_eq, Ht. split; [reflexivity|].
    unfold cancel. destruct t as [f c []]; cbn; repeat split; congruence.
  - exists t. rewrite list_lookup_alter_ne by exact Hne.
    split; [exact Ht|]. now repeat split.
Qed.

Lemma timers_runCallback (cb : Callback) (b : Browser) :
  timers (snd (runCallback cb b)) = timers b.
Proof. destruct cb. reflexivity. Qed.

Lemma continues_fireTimer (handle : nat) (b : Browser) :
  continues (timers b) (timers (snd (fireTimer handle b))).
Proof.
  unfold fireTimer.
  destruct (timers b !! handle) as [t|] eqn:Ht; [|apply continues_refl].
  destruct (status t) eqn:Hst; try apply continues_refl.
  destruct (fireAt t <=? clock b); [|apply continues_refl].
  rewrite timers_runCallback. unfold withTimers; cbn [timers].
  intros h t0 Ht0. destruct (decide (handle = h)) as [->|Hne].
  - exists (fire t). rewrite list_lookup_insert_eq by (now apply lookup_lt_Some in Ht).
    split; [reflexivity|]. assert (t0 = t) as -> by congruence.
    cbn. repeat split. congruence.
  - exists t0. rewrite list_lookup_insert_ne by exact Hne.
    split; [exact Ht0|]. now repeat split.
Qed.

Lemma step_continues (tz : Z) (user : string) (e : Event) (s : State) :
  continues (timers (browser s)) (timers (browser (step tz user e s))).
Proof.
  destruct e as [v|v| |id|h|ms].
  - apply continues_refl.
  - apply continues_refl.
  - cbn [step]. unfold handle, addReminder.
    destruct (negb (JsString.truthy (medName (page s)))
              || negb (JsString.truthy (medTime (page s)))).
    + apply continues_refl.
    + unfold bind at 1. rewrite schedule_run. cbn. apply continues_app.
  - rewrite step_delete_run. cbn [browser]. unfold withStorage; cbn [timers].
    destruct (List.find _ _); [apply continues_alter_cancel | apply continues_refl].
  - cbn [step browser]. apply continues_fireTimer.
  - apply continues_refl.
Qed.

Lemma run_continues (tz : Z) (user : string) (es : list Event) :
  forall s : State,
    continues (timers (browser s)) (timers (browser (run tz user es s))).
Proof.
  induction es as [|e es IH]; intros s.
  - apply continues_refl.
  - cbn. eapply continues_trans; [apply step_continues | apply IH].
Qed.

Lemma mounted_continues (tz : Z) (user : string) (b : Browser) :
  continues (timers b) (timers (browser (mounted tz user b))).
Proof.
  destruct (mounted_result tz user b) as (b' & rs & Hb' & ->).
  destruct (loadEffect_frame tz user b) as (extra & Hframe & _).
  subst b'. cbn. rewrite Hframe. cbn. apply continues_app.
Qed.

Lemma step_fire_settled (tz : Z) (user : string) (handle : nat) (s : State) :
  pendingTimer (browser s) handle = false ->
  step tz user (TimerFires handle) s = s.
Proof.
  intros Hsettled. cbn [step]. unfold fireTimer.
  unfold pendingTimer in Hsettled.
  destruct (timers (browser s) !! handle) as [t|]; [|now destruct s].
  destruct (status t); [discriminate | now destruct s | now destruct s].
Qed.

(** X9: once a reminder has been deleted (identifiers unique, state
    reachable), the timer it held never runs: whatever events follow, the
    browser's attempt to fire that handle changes nothing, so the deleted
    reminder is never announced by it. *)
Theorem deleted_reminder_never_notifies
    (tz : Z) (user : string) (s : State) (r : Reminder.t) (es : list Event) :
  reachable tz user s ->
  NoDup (Reminder.id <$> reminders (page s)) ->
  r ∈ reminders (page s) ->
  let after := run tz user es (step tz user (ClickDelete (Reminder.id r)) s) in
  step tz user (TimerFires (Reminder.timeoutId r)) after = after.
Proof.
  intros Hreach Hnodup Hin after.
  apply step_fire_settled.
  destruct (reachable_handlesValid tz user s Hreach) as [_ Hvalid].
  rewrite Forall_forall in Hvalid. specialize (Hvalid r Hin).
  apply lookup_lt_is_Some_2 in Hvalid as [t Ht].
  set (deleted := step tz user (ClickDelete (Reminder.id r)) s).
  assert (Hcancelled : exists t', timers (browser deleted) !! Reminder.timeoutId r = Some t'
                                  /\ status t' <> Pending).
  { subst deleted. rewrite step_delete_run.
    destruct (find_present (Reminder.id r) _ r Hin eq_refl) as (r0 & Hfind & Hr0 & Hid0).
    assert (r0 = r) as -> by (apply (unique_id _ _ _ Hnodup Hr0 Hin); exact Hid0).
    rewrite Hfind. cbn [browser]. unfold withStorage, withTimers; cbn [timers].
    exists (cancel t). rewrite list_lookup_alter_eq, Ht. split; [reflexivity|].
    unfold cancel. destruct t as [f c []]; cbn; congruence. }
  destruct Hcancelled as (t' & Ht' & Hst').
  destruct (run_continues tz user es deleted _ _ Ht') as (t'' & Ht'' & _ & _ & Hkeep).
  subst after. unfold pendingTimer. fold deleted. rewrite Ht''.
  rewrite (Hkeep Hst'). destruct (status t'); [congruence | reflexivity | reflexivity].
Qed.

(** ** Coming back to the page *)

(** X10: when the user leaves the profile page and comes back (the page is
    mounted again in the browser the visit left) and the stored entry is
    the list the page shows, the reminders are shown again with the same
    id, name and time and the form fields are empty; every reminder holds
    a new pending timer, while the timer it held before is as it was: one
    that was pending is still pending, so the reminder will be announced
    once per visit. *)
Theorem revisiting_the_page_arms_timers_again
    (tz : Z) (user : string) (s : State) :
  localStorage (browser s) !! storageKey user
    = Some (Document (JArr (storedObject <$> reminders (page s)))) ->
  Forall (fun r => (Reminder.timeoutId r < length (timers (browser s)))%nat)
         (reminders (page s)) ->
  let s' := mounted tz user (browser s) in
  tripleOf <$> reminders (page s') = tripleOf <$> reminders (page s) /\
  medName (page s') = "" /\ medTime (page s') = "" /\
  length (timers (browser s'))
    = (length (timers (browser s)) + length (reminders (page s)))%nat /\
  (forall (i : nat) (r : Reminder.t),
     reminders (page s) !! i = Some r ->
     exists r' : Reminder.t,
       reminders (page s') !! i = Some r' /\
       tripleOf r' = tripleOf r /\
       Reminder.timeoutId r' <> Reminder.timeoutId r /\
       pendingTimer (browser s') (Reminder.timeoutId r') = true /\
       pendingTimer (browser s') (Reminder.timeoutId r)
         = pendingTimer (browser s) (Reminder.timeoutId r)).
Proof.
  intros Hstored Hvalid s'. subst s'.
  assert (Hsync : localStorage (browser s) !! storageKey user
            = Some (Document (JArr (Stored.toJSON <$> (Stored.rest <$> reminders (page s)))))).
  { rewrite Hstored. rewrite <- list_fmap_compose. reflexivity. }
  rewrite (mounted_persisted tz user _ (browser s) Hsync).
  cbn [page browser reminders medName medTime]. unfold withTimers; cbn [timers].
  split; [apply triples_of_rest, rest_withHandlesFrom|].
  split; [reflexivity|]. split; [reflexivity|].
  split; [now rewrite length_app, !length_fmap|].
  intros i r Hi.
  assert (Hrest : (Stored.rest <$> reminders (page s)) !! i = Some (Stored.rest r))
    by (now rewrite list_lookup_fmap, Hi).
  exists (Stored.withTimeoutId (Stored.rest r) (length (timers (browser s)) + i)).
  rewrite withHandlesFrom_lookup, Hrest.
  split; [reflexivity|]. split; [reflexivity|].
  rewrite Forall_forall in Hvalid.
  assert (Hr : (Reminder.timeoutId r < length (timers (browser s)))%nat).
  { apply Hvalid. eapply list_elem_of_lookup_2. exact Hi. }
  cbn [Stored.withTimeoutId Reminder.timeoutId].
  split; [lia|]. unfold pendingTimer; cbn [timers]. split.
  - now rewrite (loaded_timer tz _ _ _ i _ Hrest).
  - now rewrite lookup_app_l by exact Hr.
Qed.

(** ** Other entries of the storage *)

Lemma storageKey_inj (u v : string) : storageKey u = storageKey v -> u = v.
Proof. unfold storageKey. cbn. intros H. now injection H. Qed.

Lemma storageKey_not_session (u : string) : "currentUser" <> storageKey u.
Proof. unfold storageKey. cbn. discriminate. Qed.

Lemma localStorage_runCallback (cb : Callback) (b : Browser) :
  localStorage (snd (runCallback cb b)) = localStorage b.
Proof. destruct cb. reflexivity. Qed.

Lemma step_other_key (tz : Z) (user : string) (e : Event) (s : State) (key : string) :
  key <> storageKey user ->
  localStorage (browser (step tz user e s)) !! key = localStorage (browser s) !! key.
Proof.
  intros Hkey.
  destruct e as [v|v| |id|h|ms]; try reflexivity.
  - cbn [step]. unfold handle, addReminder.
    destruct (negb (JsString.truthy (medName (page s)))
              || negb (JsString.truthy (medTime (page s)))); [reflexivity|].
    unfold bind at 1. rewrite schedule_run. cbn.
    now rewrite lookup_insert_ne by congruence.
  - rewrite step_delete_run. cbn [browser]. unfold withStorage; cbn [localStorage].
    rewrite lookup_insert_ne by congruence.
    destruct (List.find _ _); reflexivity.
  - cbn [step browser]. unfold fireTimer.
    destruct (timers (browser s) !! h) as [t|]; [|reflexivity].
    destruct (status t); try reflexivity.
    destruct (fireAt t <=? clock (browser s)); [|reflexivity].
    now rewrite localStorage_runCallback.
Qed.

Lemma run_other_key (tz : Z) (user : string) (es : list Event) (key : string) :
  key <> storageKey user ->
  forall s : State,
    localStorage (browser (run tz user es s)) !! key = localStorage (browser s) !! key.
Proof.
  intros Hkey. induction es as [|e es IH]; intros s; [reflexivity|].
  change (run tz user (e :: es) s) with (run tz user es (step tz user e s)).
  rewrite IH. now apply step_other_key.
Qed.

Lemma mounted_other_key (tz : Z) (user : string) (b : Browser) (key : string) :
  key <> storageKey user ->
  localStorage (browser (mounted tz user b)) !! key = localStorage b !! key.
Proof.
  intros Hkey.
  destruct (mounted_result tz user b) as (b' & rs & Hb' & ->).
  destruct (loadEffect_frame tz user b) as (extra & Hframe & _).
  subst b'. cbn. rewrite lookup_insert_ne by congruence. now rewrite Hframe.
Qed.

Lemma stepIn_room (tz : Z) (user : string) (e : Event) (s : State) :
  stepIn true tz user e s = step tz user e s.
Proof. destruct e; reflexivity. Qed.

Lemma stepIn_add_full (tz : Z) (user : string) (s : State) :
  JsString.truthy (medName (page s)) = true ->
  JsString.truthy (medTime (page s)) = true ->
  stepIn false tz user SubmitAddReminder s =
  {| page := {| reminders :=
                  (reminders (page s) ++ [newReminderOf (page s) (browser s)])%list;
                medName := ""; medTime := "" |};
     browser :=
       withTimers
         (timers (browser s)
            ++ [armed tz (clock (browser s)) (medName (page s)) (medTime (page s))])
         (browser s) |}.
Proof.
  intros Hname Htime.
  unfold stepIn, handleIn, addReminder. rewrite Hname, Htime. cbn [negb orb].
  unfold bind at 1. rewrite schedule_run. reflexivity.
Qed.

Lemma stepIn_delete_full (tz : Z) (user : string) (id : Z) (s : State) :
  stepIn false tz user (ClickDelete id) s =
  {| page := {| reminders := without id (reminders (page s));
                medName := medName (page s); medTime := medTime (page s) |};
     browser :=
       match List.find (fun r => Z.eqb (Reminder.id r) id) (reminders (page s)) with
       | Some r => withTimers (alter cancel (Reminder.timeoutId r) (timers (browser s)))
                              (browser s)
       | None => browser s
       end |}.
Proof.
  unfold stepIn, handleIn, removeReminder, bind.
  destruct (List.find _ (reminders (page s))) as [r|]; reflexivity.
Qed.

(** X3: saving is done after every change of the list and is best
    effort.  An accepted submission and a deletion change the list the page
    shows whether or not the store has room; with room the entry under the
    user's key is then the array of the {id, name, time} objects of the
    reminders shown, without room the write throws, the catch of lines
    939-941 swallows it and the entry stays what it was, so that the page
    shows what is not saved.  Editing a field, a rejected submission, a
    timer that fires and the passing of time change neither the list nor
    any entry of the store. *)
Theorem list_is_saved_when_the_store_has_room
    (room : bool) (tz : Z) (user : string) (s : State) :
  let next (e : Event) := stepIn room tz user e s in
  let entry (s' : State) := localStorage (browser s') !! storageKey user in
  let written (s' : State) :=
    Some (Document (JArr (storedObject <$> reminders (page s')))) in
  let untouched (s' : State) :=
    reminders (page s') = reminders (page s) /\
    localStorage (browser s') = localStorage (browser s) in
  (JsString.truthy (medName (page s)) = true ->
   JsString.truthy (medTime (page s)) = true ->
   reminders (page (next SubmitAddReminder))
     = (reminders (page s) ++ [newReminderOf (page s) (browser s)])%list /\
   entry (next SubmitAddReminder)
     = if room then written (next SubmitAddReminder) else entry s) /\
  (forall id : Z,
     reminders (page (next (ClickDelete id))) = without id (reminders (page s)) /\
     entry (next (ClickDelete id))
       = if room then written (next (ClickDelete id)) else entry s) /\
  (medName (page s) = "" \/ medTime (page s) = "" -> untouched (next SubmitAddReminder)) /\
  (forall v : string, untouched (next (ChangeMedName v))) /\
  (forall v : string, untouched (next (ChangeMedTime v))) /\
  (forall handle : nat, untouched (next (TimerFires handle))) /\
  (forall ms : N, untouched (next (Tick ms))).
Proof.
  intros next entry written untouched.
  assert (Hdoc : forall rs : list Reminder.t,
            persisted rs = Document (JArr (storedObject <$> rs))).
  { intros rs. unfold persisted, JSON_stringify.
    rewrite <- list_fmap_compose. reflexivity. }
  split; [|split; [|split; [|split; [|split; [|split]]]]].
  - intros Hname Htime. unfold next, entry, written. destruct room.
    + rewrite stepIn_room, (step_add_run tz user s Hname Htime).
      cbn. rewrite lookup_insert_eq. split; [reflexivity | apply f_equal, Hdoc].
    + rewrite (stepIn_add_full tz user s Hname Htime). split; reflexivity.
  - intros id. unfold next, entry, written. destruct room.
    + rewrite stepIn_room, step_delete_run. cbn [page browser reminders].
      unfold withStorage; cbn [localStorage]. rewrite lookup_insert_eq.
      split; [reflexivity | apply f_equal, Hdoc].
    + rewrite stepIn_delete_full. cbn [page browser reminders].
      split; [reflexivity|].
      destruct (List.find _ (reminders (page s))); reflexivity.
  - intros Hempty. unfold untouched, next.
    assert (Hguard : negb (JsString.truthy (medName (page s)))
                     || negb (JsString.truthy (medTime (page s))) = true).
    { destruct Hempty as [-> | ->]; [reflexivity | apply orb_true_r]. }
    unfold stepIn, handleIn, addReminder. rewrite Hguard. split; reflexivity.
  - intros v. split; reflexivity.
  - intros v. split; reflexivity.
  - intros handle. unfold untouched, next. cbn [stepIn page browser].
    split; [reflexivity|]. unfold fireTimer.
    destruct (timers (browser s) !! handle) as [t|]; [|reflexivity].
    destruct (status t); try reflexivity.
    destruct (fireAt t <=? clock (browser s)); [|reflexivity].
    now rewrite localStorage_runCallback.
  - intros ms. split; reflexivity.
Qed.

(** X11: the page of one user writes only under that user's key: the
    reminders stored for any other user and the stored session entry are
    distinct keys and keep their value through every mount and every
    sequence of events. *)
Theorem page_writes_only_its_own_entry (tz : Z) (user other : string) :
  other <> user ->
  storageKey other <> storageKey user /\
  "currentUser" <> storageKey user /\
  (forall (b : Browser) (key : string),
     key = storageKey other \/ key = "currentUser" ->
     localStorage (browser (mounted tz user b)) !! key = localStorage b !! key) /\
  (forall (es : list Event) (s : State) (key : string),
     key = storageKey other \/ key = "currentUser" ->
     localStorage (browser (run tz user es s)) !! key
       = localStorage (browser s) !! key).
Proof.
  intros Hother.
  assert (Hk1 : storageKey other <> storageKey user)
    by (intros Heq; apply Hother; now apply storageKey_inj).
  pose proof (storageKey_not_session user) as Hk2.
  split; [exact Hk1|]. split; [exact Hk2|]. split.
  - intros b key [-> | ->]; now apply mounted_other_key.
  - intros es s key [-> | ->]; now apply run_other_key.
Qed.

(** ** Reminders that share an identifier *)

(** X12: when two reminders carry the same identifier, deleting it removes
    both from the page but cancels only the timer of the first: the timer
    held by the other is left as it was, pending if it was pending. *)
Theorem removeReminder_cancels_only_the_first_match
    (tz : Z) (user : string) (s : State) (r0 r1 : Reminder.t) :
  List.find (fun r => Z.eqb (Reminder.id r) (Reminder.id r0)) (reminders (page s))
    = Some r0 ->
  r1 ∈ reminders (page s) ->
  Reminder.id r1 = Reminder.id r0 ->
  Reminder.timeoutId r1 <> Reminder.timeoutId r0 ->
  let s' := step tz user (ClickDelete (Reminder.id r0)) s in
  (r0 ∉ reminders (page s')) /\
  (r1 ∉ reminders (page s')) /\
  pendingTimer (browser s') (Reminder.timeoutId r0) = false /\
  pendingTimer (browser s') (Reminder.timeoutId r1)
    = pendingTimer (browser s) (Reminder.timeoutId r1).
Proof.
  intros Hfind Hin Hid Hhandle s'. subst s'.
  rewrite step_delete_run, Hfind. cbn [page browser reminders].
  split; [|split; [|split]].
  - intros Hmem. apply without_spec in Hmem as [_ Hne]. now apply Hne.
  - intros Hmem. apply without_spec in Hmem as [_ Hne]. now apply Hne.
  - exact (pendingTimer_cancelled (Reminder.timeoutId r0) (browser s)).
  - unfold pendingTimer, withStorage, withTimers; cbn [timers].
    now rewrite list_lookup_alter_ne by congruence.
Qed.

(** * The application shell *)


(** X14: logging out shows the login page, keeps showing it after a
    reload, and removes nothing from the storage but the session entry. *)
Theorem logout_ends_the_session (documentText : JSON -> string) (a : App) :
  showsLogin (handleLogout a) = true /\
  (forall b' : Browser,
     localStorage b' = localStorage (appBrowser (handleLogout a)) ->
     showsLogin (appMounted documentText b') = true) /\
  (forall key : string,
     key <> "currentUser" ->
     localStorage (appBrowser (handleLogout a)) !! key
       = localStorage (appBrowser a) !! key).
Proof.
  split; [reflexivity|]. split.
  - intros b' Hstorage. unfold appMounted, restoreSession. cbn [appBrowser].
    rewrite Hstorage. unfold handleLogout, removeItem; cbn.
    now rewrite lookup_delete_eq.
  - intros key Hkey. unfold handleLogout, removeItem; cbn.
    now rewrite lookup_delete_ne by congruence.
Qed.

(** X15: the reminders of a user survive logging out and logging in
    again: neither handler touches the entry stored under the user's key,
    and when that entry is the list the page wrote for some reminders, the
    profile page mounted after the new login shows reminders with the same
    id, name and time, in the same order. *)
Theorem reminders_survive_logout_and_login
    (tz : Z) (user : string) (a : App) (rs : list Reminder.t) :
  localStorage (appBrowser a) !! storageKey user
    = Some (Document (JArr (storedObject <$> rs))) ->
  let a' := handleLogin user (handleLogout a) in
  localStorage (appBrowser a') !! storageKey user
    = localStorage (appBrowser a) !! storageKey user /\
  tripleOf <$> reminders (page (mounted tz user (appBrowser a'))) = tripleOf <$> rs.
Proof.
  intros Hstored a'.
  assert (Hkept : localStorage (appBrowser a') !! storageKey user
                  = localStorage (appBrowser a) !! storageKey user).
  { subst a'. unfold handleLogin, handleLogout, setItem, removeItem; cbn.
    pose proof (storageKey_not_session user) as Hkey.
    rewrite lookup_insert_ne by exact Hkey.
    now rewrite lookup_delete_ne by exact Hkey. }
  split; [exact Hkept|].
  rewrite (mounted_persisted tz user (Stored.rest <$> rs)).
  - cbn [page reminders]. apply triples_of_rest, rest_withHandlesFrom.
  - rewrite Hkept, Hstored. rewrite <- list_fmap_compose. reflexivity.
Qed.

(** * The appointment reminder *)

Lemma day_of_utc_midnight (tz D : Z) :
  - JsDate.msPerDay <= tz < JsDate.msPerDay ->
  JsDate.day tz (D * JsDate.msPerDay) = if tz <? 0 then D - 1 else D.
Proof.
  intros Htz. unfold JsDate.day, JsDate.msPerDay in *.
  destruct (Z.ltb_spec tz 0).
  - symmetry. apply (Z.div_unique _ _ _ (tz + 86400000)); lia.
  - symmetry. apply (Z.div_unique _ _ _ tz); lia.
Qed.

(** The request in closed form, for a date text that reads as the UTC
    midnight of day [D] and a valid time of day: the appointment is taken on
    the local day in which that midnight falls. *)
Lemma handleSetReminder_formula
    (tz : Z) (parseDate : string -> JsDate.Date) (c : Confirmation) (now D h m : Z) :
  parseDate (Booking.date (bookingDetails c)) = Some (D * JsDate.msPerDay) ->
  hoursMinutes (Booking.time (bookingDetails c)) = (Some h, Some m) ->
  0 <= h < 24 -> 0 <= m < 60 ->
  - JsDate.msPerDay <= tz < JsDate.msPerDay ->
  Z.abs (D * JsDate.msPerDay) <= 8640000000000000 - 4 * JsDate.msPerDay ->
  let taken := JsDate.atTimeOfDay tz (if tz <? 0 then D - 1 else D) h m in
  handleSetReminder tz parseDate (Some c) now =
  if now <? taken - JsDate.msPerDay
  then ArmTimer (timerDelay (Some (taken - JsDate.msPerDay - now)))
         (appointmentMessage (Booking.hospitalName (bookingDetails c))
                             (Booking.time (bookingDetails c)))
  else Refuse tooLateMessage.
Proof.
  intros Hdate Htime Hh Hm Htz Hrange taken.
  unfold handleSetReminder. rewrite Htime, Hdate.
  unfold JsDate.setHours. rewrite (day_of_utc_midnight tz D Htz). fold taken.
  assert (Hbound : Z.abs taken <= 8640000000000000 - 2 * JsDate.msPerDay).
  { subst taken. unfold JsDate.atTimeOfDay, JsDate.msPerHour, JsDate.msPerMinute,
      JsDate.msPerDay in *. destruct (tz <? 0); lia. }
  unfold JsDate.msPerDay in Hbound.
  rewrite timeClip_in_range by lia.
  unfold dayBefore.
  change (24 * 60 * 60 * 1000) with 86400000.
  rewrite timeClip_in_range by lia.
  unfold JsDate.lt, JsDate.diff, JsDate.msPerDay. reflexivity.
Qed.


(** X17: the handler refuses, with the alert that the appointment is less
    than 24 hours away, arms nothing and leaves the reminder flag alone, in
    each of these cases: the date text does not read as a date, the time
    text has no colon (an empty time among them), or (east of Greenwich,
    valid date and time) the appointment is 24 hours away or less; without
    a confirmation it does nothing. *)
Theorem appointment_reminder_refusals
    (tz : Z) (parseDate : string -> JsDate.Date) (c : Confirmation) (now : Z) :
  handleSetReminder tz parseDate None now = NothingToRemind /\
  (parseDate (Booking.date (bookingDetails c)) = None ->
   handleSetReminder tz parseDate (Some c) now = Refuse tooLateMessage) /\
  (forall piece : string,
     JsString.split ":" (Booking.time (bookingDetails c)) = [piece] ->
     handleSetReminder tz parseDate (Some c) now = Refuse tooLateMessage) /\
  (forall D h m : Z,
     parseDate (Booking.date (bookingDetails c)) = Some (D * JsDate.msPerDay) ->
     hoursMinutes (Booking.time (bookingDetails c)) = (Some h, Some m) ->
     0 <= h < 24 -> 0 <= m < 60 ->
     0 <= tz < JsDate.msPerDay ->
     Z.abs (D * JsDate.msPerDay) <= 8640000000000000 - 4 * JsDate.msPerDay ->
     JsDate.atTimeOfDay tz D h m - JsDate.msPerDay <= now ->
     handleSetReminder tz parseDate (Some c) now = Refuse tooLateMessage).
Proof.
  split; [reflexivity|]. split; [|split].
  - intros Hdate. unfold handleSetReminder. rewrite Hdate.
    destruct (hoursMinutes _) as [hours minutes]. reflexivity.
  - intros piece Hsplit. unfold handleSetReminder, hoursMinutes. rewrite Hsplit.
    cbn. unfold JsDate.setHours.
    destruct (parseDate _) as [t|]; [|reflexivity].
    destruct (JsString.toNumber piece); reflexivity.
  - intros D h m Hdate Htime Hh Hm Htz Hrange Hclose.
    rewrite (handleSetReminder_formula tz parseDate c now D h m Hdate Htime Hh Hm)
      by (unfold JsDate.msPerDay in *; lia).
    destruct (Z.ltb_spec tz 0); [lia|].
    destruct (Z.ltb_spec now (JsDate.atTimeOfDay tz D h m - JsDate.msPerDay));
      [lia | reflexivity].
Qed.



(** * The imaging page *)

(** ** File kinds *)

Lemma append_nil_l (s : string) : "" +:+ s = s.
Proof. reflexivity. Qed.

Lemma append_cons (c : ascii) (a b : string) : String c a +:+ b = String c (a +:+ b).
Proof. reflexivity. Qed.

Lemma split_nonempty (sep : ascii) (s : string) : JsString.split sep s <> [].
Proof.
  destruct s as [|c s]; cbn [JsString.split]; [discriminate|].
  destruct (Ascii.eqb c sep); [discriminate|].
  destruct (JsString.split sep s); discriminate.
Qed.

Lemma split_app_sep (sep : ascii) (base ext : string) :
  JsString.split sep (base +:+ String sep ext)
  = (JsString.split sep base ++ JsString.split sep ext)%list.
Proof.
  induction base as [|c base IH];
    rewrite ?append_nil_l, ?append_cons; cbn [JsString.split app].
  - now rewrite Ascii.eqb_refl.
  - destruct (Ascii.eqb c sep); [now rewrite IH|].
    rewrite IH. pose proof (split_nonempty sep base) as Hne.
    destruct (JsString.split sep base) as [|piece rest]; [contradiction | reflexivity].
Qed.

Lemma split_without_sep (s : string) :
  hasDot s = false -> JsString.split "." s = [s].
Proof.
  unfold hasDot. induction s as [|c s IH];
    cbn [list_ascii_of_string existsb JsString.split]; [reflexivity|].
  intros Hno. apply orb_false_elim in Hno as [Hc Hs].
  rewrite Ascii.eqb_sym, Hc. now rewrite (IH Hs).
Qed.

Lemma toLowerChar_dot (c : ascii) :
  Ascii.eqb (toLowerChar c) "." = Ascii.eqb c ".".
Proof. destruct c as [[] [] [] [] [] [] [] []]; reflexivity. Qed.

Lemma toLowerChar_idem (c : ascii) : toLowerChar (toLowerChar c) = toLowerChar c.
Proof. destruct c as [[] [] [] [] [] [] [] []]; reflexivity. Qed.

Lemma toLowerCase_idem (s : string) : toLowerCase (toLowerCase s) = toLowerCase s.
Proof. induction s as [|c s IH]; cbn; [reflexivity|]. now rewrite toLowerChar_idem, IH. Qed.

Lemma split_toLowerCase (s : string) :
  JsString.split "." (toLowerCase s) = toLowerCase <$> JsString.split "." s.
Proof.
  induction s as [|c s IH]; cbn [toLowerCase JsString.split]; [reflexivity|].
  rewrite toLowerChar_dot. destruct (Ascii.eqb c ".");
    cbn [fmap list_fmap toLowerCase]; [now rewrite IH|].
  rewrite IH. pose proof (split_nonempty "." s) as Hne.
  destruct (JsString.split "." s) as [|piece rest]; [contradiction | reflexivity].
Qed.

Lemma fileExtension_after_dot (base ext : string) :
  hasDot ext = false ->
  fileExtension (base +:+ String "." ext) = Some (toLowerCase ext).
Proof.
  intros Hno. unfold fileExtension.
  rewrite split_app_sep, (split_without_sep ext Hno), last_snoc. reflexivity.
Qed.

(** X20: the branch taken for a file depends only on the text after the
    last dot of its name, read without regard to letter case; a name
    without a dot counts as its own extension. *)
Theorem file_kind_reads_the_last_extension :
  (forall base ext : string,
     hasDot ext = false ->
     fileExtension (base +:+ String "." ext) = Some (toLowerCase ext) /\
     fileKind (base +:+ String "." ext) = fileKind ext) /\
  (forall name : string,
     hasDot name = false -> fileExtension name = Some (toLowerCase name)) /\
  (forall name : string, fileKind (toLowerCase name) = fileKind name).
Proof.
  assert (Hnodot : forall name, hasDot name = false ->
                                fileExtension name = Some (toLowerCase name)).
  { intros name Hno. unfold fileExtension. now rewrite (split_without_sep name Hno). }
  split; [|split].
  - intros base ext Hno. split; [now apply fileExtension_after_dot|].
    unfold fileKind.
    now rewrite (fileExtension_after_dot base ext Hno), (Hnodot ext Hno).
  - exact Hnodot.
  - intros name. unfold fileKind, fileExtension.
    rewrite split_toLowerCase, fmap_last, <- option_fmap_compose.
    assert (Hsame : toLowerCase ∘ toLowerCase <$> last (JsString.split "." name)
                    = toLowerCase <$> last (JsString.split "." name)).
    { destruct (last (JsString.split "." name)); cbn; [|reflexivity].
      now rewrite toLowerCase_idem. }
    now rewrite Hsame.
Qed.

(** ** Fenced JSON *)

Lemma append_assoc (a b c : string) : (a +:+ b) +:+ c = a +:+ (b +:+ c).
Proof.
  induction a as [|x a IH]; [reflexivity|]. rewrite !append_cons. now rewrite IH.
Qed.

Lemma stripPrefix_Some (p : string) : forall s r : string,
  stripPrefix p s = Some r <-> s = p +:+ r.
Proof.
  induction p as [|a p IH]; intros s r; rewrite ?append_nil_l, ?append_cons;
    cbn [stripPrefix].
  - split; [now intros [= ->] | now intros ->].
  - destruct s as [|b s]; [split; discriminate|].
    destruct (Ascii.eqb_spec a b) as [->|Hne].
    + rewrite IH. split; [now intros -> | now intros [= ->]].
    + split; [discriminate | intros [= Hab _]; congruence].
Qed.

Lemma lazyBefore_sound (closing : string) : forall s body : string,
  lazyBefore closing s = Some body ->
  exists post : string, s = body +:+ closing +:+ post.
Proof.
  induction s as [|c s IH]; intros body Hbody; cbn in Hbody.
  - destruct (stripPrefix closing "") as [r|] eqn:Hstrip; [|discriminate].
    injection Hbody as <-. apply stripPrefix_Some in Hstrip. now exists r.
  - destruct (stripPrefix closing (String c s)) as [r|] eqn:Hstrip.
    + injection Hbody as <-. apply stripPrefix_Some in Hstrip. now exists r.
    + destruct (lazyBefore closing s) as [body'|] eqn:Hrest; [|discriminate].
      injection Hbody as <-. destruct (IH body' eq_refl) as [post ->].
      now exists post.
Qed.

Lemma lazyBefore_complete (closing : string) : forall body post : string,
  is_Some (lazyBefore closing (body +:+ closing +:+ post)).
Proof.
  induction body as [|c body IH]; intros post.
  - rewrite append_nil_l.
    assert (Hstrip : stripPrefix closing (closing +:+ post) = Some post)
      by now apply stripPrefix_Some.
    destruct (closing +:+ post) as [|x rest]; cbn [lazyBefore]; rewrite Hstrip; eauto.
  - rewrite append_cons. cbn [lazyBefore].
    destruct (stripPrefix closing (String c (body +:+ closing +:+ post))); [eauto|].
    destruct (IH post) as [b Hb]. rewrite Hb. eauto.
Qed.

Lemma lazyPlusBefore_sound (closing s body : string) :
  lazyPlusBefore closing s = Some body ->
  body <> "" /\ exists post : string, s = body +:+ closing +:+ post.
Proof.
  destruct s as [|c s]; cbn; [discriminate|].
  destruct (lazyBefore closing s) as [body'|] eqn:Hrest; [|discriminate].
  intros [= <-]. split; [discriminate|].
  destruct (lazyBefore_sound closing s body' Hrest) as [post ->]. now exists post.
Qed.

Lemma lazyPlusBefore_complete (closing body post : string) :
  body <> "" -> is_Some (lazyPlusBefore closing (body +:+ closing +:+ post)).
Proof.
  destruct body as [|c body]; [congruence|]. intros _.
  rewrite append_cons. cbn [lazyPlusBefore].
  destruct (lazyBefore_complete closing body post) as [b Hb]. rewrite Hb.
  cbn. eauto.
Qed.

Lemma firstFence_sound : forall text body : string,
  firstFence text = Some body ->
  body <> "" /\
  exists pre post : string, text = pre +:+ fenceOpen +:+ body +:+ fenceClose +:+ post.
Proof.
  assert (Hhere : forall text body,
            stripPrefix fenceOpen text ≫= lazyPlusBefore fenceClose = Some body ->
            body <> "" /\ exists pre post : string,
              text = pre +:+ fenceOpen +:+ body +:+ fenceClose +:+ post).
  { intros text body Hm.
    destruct (stripPrefix fenceOpen text) as [rest|] eqn:Hstrip; [|discriminate].
    cbn in Hm. apply stripPrefix_Some in Hstrip.
    destruct (lazyPlusBefore_sound _ _ _ Hm) as [Hne [post ->]].
    split; [exact Hne|]. exists "", post. exact Hstrip. }
  induction text as [|c text IH]; intros body Hbody.
  - cbn [firstFence] in Hbody.
    destruct (stripPrefix fenceOpen "" ≫= lazyPlusBefore fenceClose) eqn:Hm;
      [|discriminate].
    injection Hbody as ->. now apply Hhere.
  - cbn [firstFence] in Hbody.
    destruct (stripPrefix fenceOpen (String c text) ≫= lazyPlusBefore fenceClose) eqn:Hm.
    + injection Hbody as ->. now apply Hhere.
    + destruct (IH body Hbody) as [Hne (pre & post & ->)].
      split; [exact Hne|]. now exists (String c pre), post.
Qed.

Lemma firstFence_complete : forall pre body post : string,
  body <> "" ->
  is_Some (firstFence (pre +:+ fenceOpen +:+ body +:+ fenceClose +:+ post)).
Proof.
  intros pre body post Hne.
  induction pre as [|c pre IH].
  - rewrite append_nil_l.
    assert (Hstrip : stripPrefix fenceOpen (fenceOpen +:+ body +:+ fenceClose +:+ post)
                     = Some (body +:+ fenceClose +:+ post)) by now apply stripPrefix_Some.
    destruct (lazyPlusBefore_complete fenceClose body post Hne) as [b Hb].
    destruct (fenceOpen +:+ body +:+ fenceClose +:+ post) as [|x rest];
      cbn [firstFence]; rewrite Hstrip; cbn [mbind option_bind]; rewrite Hb; eauto.
  - rewrite append_cons. cbn [firstFence].
    destruct (stripPrefix fenceOpen _ ≫= lazyPlusBefore fenceClose); [eauto|].
    exact IH.
Qed.

(** X21: [extractJsonFromMarkdown] returns [null] when the text holds no
    opening fence followed by at least one character and a closing fence;
    any other value it returns is [JSON.parse] of such a fenced body, and
    it throws only when [JSON.parse] throws on such a body.  A [null]
    result does not tell the two cases apart: a fenced body that reads
    [null] gives it too. *)
Theorem extract_finds_a_fenced_body (parseText : string -> option JSON) (text : string) :
  let fenced (body : string) :=
    body <> "" /\
    exists pre post : string, text = pre +:+ fenceOpen +:+ body +:+ fenceClose +:+ post in
  ((forall body : string, ~ fenced body) ->
   extractJsonFromMarkdown parseText text = Some JNull) /\
  (forall j : JSON,
     extractJsonFromMarkdown parseText text = Some j ->
     (j = JNull /\ forall body : string, ~ fenced body) \/
     (exists body : string, fenced body /\ parseText body = Some j)) /\
  (extractJsonFromMarkdown parseText text = None ->
   exists body : string, fenced body /\ parseText body = None) /\
  (forall post : string,
     extractJsonFromMarkdown parseText (fenceOpen +:+ "null" +:+ fenceClose +:+ post)
     = parseText "null").
Proof.
  intros fenced. unfold extractJsonFromMarkdown.
  assert (Hsound : forall body, firstFence text = Some body -> fenced body).
  { intros body Hf. destruct (firstFence_sound text body Hf) as [Hne (pre & post & ->)].
    split; [exact Hne|]. now exists pre, post. }
  assert (Hnone : firstFence text = None -> forall body, ~ fenced body).
  { intros Hf body [Hne (pre & post & Htext)].
    destruct (firstFence_complete pre body post Hne) as [b Hb].
    rewrite <- Htext in Hb. congruence. }
  split; [|split; [|split]].
  - intros Hno. destruct (firstFence text) as [body|] eqn:Hf; [|reflexivity].
    exfalso. exact (Hno body (Hsound body eq_refl)).
  - intros j Hj. destruct (firstFence text) as [body|] eqn:Hf.
    + right. exists body. split; [now apply Hsound | exact Hj].
    + left. injection Hj as <-. split; [reflexivity | now apply Hnone].
  - intros Hthrow. destruct (firstFence text) as [body|] eqn:Hf; [|discriminate].
    exists body. split; [now apply Hsound | exact Hthrow].
  - intros post.
    assert (Hf : firstFence (fenceOpen +:+ "null" +:+ fenceClose +:+ post) = Some "null")
      by reflexivity.
    now rewrite Hf.
Qed.

(** * Notifications *)

Lemma mapM_reschedule_callbacks (tz : Z) (items : list JSON) :
  forall (b b' : Browser) (rs : list Reminder.t),
    mapM (reschedule tz) items b = (Some rs, b') ->
    forall r : Reminder.t,
      r ∈ rs ->
      exists t : Timer,
        timers b' !! Reminder.timeoutId r = Some t /\
        callback t = Notify (Reminder.name r).
Proof.
  induction items as [|item items IH]; intros b b' rs Hrun r Hin.
  - cbn in Hrun. injection Hrun as <- <-. inversion Hin.
  - cbn [mapM] in Hrun. unfold bind at 1 in Hrun. rewrite reschedule_run in Hrun.
    destruct (Stored.decode item) as [st|]; [|discriminate Hrun].
    unfold bind at 1 in Hrun.
    set (b1 := withTimers (timers b ++ [armedFor tz (clock b) st]) b) in *.
    destruct (mapM (reschedule tz) items b1) as [[rs'|] b2] eqn:Hrest;
      [|discriminate Hrun].
    injection Hrun as <- <-.
    apply elem_of_cons in Hin as [-> | Hin].
    + destruct (mapM_reschedule_frame tz items b1) as (extra & Hframe & _).
      rewrite Hrest in Hframe. cbn [snd] in Hframe. subst b2.
      exists (armedFor tz (clock b) st). split; [|reflexivity].
      unfold b1, withTimers; cbn [timers Stored.withTimeoutId Reminder.timeoutId].
      unfold withTimers; cbn [timers].
      rewrite lookup_app_l by (rewrite length_app; cbn; lia).
      rewrite lookup_app_r by lia. now rewrite Nat.sub_diag.
    + exact (IH b1 b2 rs' Hrest r Hin).
Qed.

Lemma loadEffect_callbacks (tz : Z) (user : string) (b : Browser) :
  exists b' : Browser,
    loadEffect tz user b = (Some [], b') \/
    exists rs : list Reminder.t,
      loadEffect tz user b = (Some [SetReminders rs], b') /\
      forall r : Reminder.t,
        r ∈ rs ->
        exists t : Timer,
          timers b' !! Reminder.timeoutId r = Some t /\
          callback t = Notify (Reminder.name r).
Proof.
  unfold loadEffect, loadBody, bind, getItem.
  destruct (textPresent (localStorage b !! storageKey user)) as [[v|j]|].
  - exists b. left. reflexivity.
  - destruct j as [|n|v|items|props]; try (exists b; left; reflexivity).
    cbn [JSON_parse Stored.items ret].
    destruct (mapM (reschedule tz) items b) as [[rs|] b'] eqn:Hrun.
    + exists b'. right. exists rs. split; [reflexivity|].
      exact (mapM_reschedule_callbacks tz items b b' rs Hrun).
    + exists b'. left. reflexivity.
  - exists b. left. reflexivity.
Qed.

Lemma mounted_announcesOwnName (tz : Z) (user : string) (b : Browser) :
  announcesOwnName (mounted tz user b).
Proof.
  unfold mounted, mount. unfold bind at 1.
  destruct (loadEffect_callbacks tz user b) as (b' & [Hload | (rs & Hload & Hcb)]);
    rewrite Hload; unfold bind at 1; rewrite persistEffect_run.
  - intros r Hin. inversion Hin.
  - unfold commit. cbn [foldl applyUpdate existsb setsReminders orb].
    unfold bind at 1. rewrite persistEffect_run. unfold ret.
    intros r Hin. cbn [page browser reminders] in *.
    unfold withStorage; cbn [timers]. now apply Hcb.
Qed.

Lemma continues_announces (ts ts' : list Timer) (r : Reminder.t) :
  continues ts ts' ->
  (exists t, ts !! Reminder.timeoutId r = Some t /\ callback t = Notify (Reminder.name r)) ->
  exists t, ts' !! Reminder.timeoutId r = Some t /\ callback t = Notify (Reminder.name r).
Proof.
  intros Hcont (t & Ht & Hcb).
  destruct (Hcont _ _ Ht) as (t' & Ht' & _ & Hcb' & _).
  exists t'. split; [exact Ht' | congruence].
Qed.

Lemma step_announcesOwnName (tz : Z) (user : string) (e : Event) (s : State) :
  announcesOwnName s -> announcesOwnName (step tz user e s).
Proof.
  intros Hown r Hin.
  pose proof (step_continues tz user e s) as Hcont.
  destruct e as [v|v| |id|h|ms];
    try (apply (continues_announces _ _ r Hcont); apply Hown; exact Hin).
  - revert Hin Hcont. cbn [step]. unfold handle, addReminder.
    destruct (negb (JsString.truthy (medName (page s)))
              || negb (JsString.truthy (medTime (page s)))).
    + intros Hin Hcont. apply Hown. exact Hin.
    + unfold bind at 1 2. rewrite schedule_run. cbn.
      intros Hin Hcont. apply elem_of_app in Hin as [Hin | Hin].
      * apply (continues_announces _ _ r Hcont). now apply Hown.
      * apply list_elem_of_singleton in Hin. subst r. cbn.
        exists (armed tz (clock (browser s)) (medName (page s)) (medTime (page s))).
        split; [|reflexivity].
        rewrite lookup_app_r by lia. now rewrite Nat.sub_diag.
  - apply (continues_announces _ _ r Hcont). apply Hown.
    rewrite step_delete_run in Hin. cbn [page reminders] in Hin.
    now apply without_spec in Hin as [Hin _].
Qed.

Lemma reachable_announcesOwnName (tz : Z) (user : string) (s : State) :
  reachable tz user s -> announcesOwnName s.
Proof.
  induction 1 as [b | e s _ IH].
  - apply mounted_announcesOwnName.
  - now apply step_announcesOwnName.
Qed.

Lemma run_fire_settled (tz : Z) (user : string) (handle : nat) (es : list Event) (s : State) :
  (exists t, timers (browser s) !! handle = Some t /\ status t <> Pending) ->
  step tz user (TimerFires handle) (run tz user es s) = run tz user es s.
Proof.
  intros (t & Ht & Hst).
  apply step_fire_settled.
  destruct (run_continues tz user es s _ _ Ht) as (t' & Ht' & _ & _ & Hkeep).
  unfold pendingTimer. rewrite Ht', (Hkeep Hst).
  destruct (status t); [congruence | reflexivity | reflexivity].
Qed.

(** X22: in a reachable state, when the browser runs the pending timer a
    reminder holds: before its instant nothing happens; from its instant on
    the reminder's name is announced once, by an alert and by speech, both
    saying "Time to take your <name>!", the page is unchanged, and whatever
    events follow, running that timer again does nothing. *)
Theorem due_reminder_is_announced_once
    (tz : Z) (user : string) (s : State) (r : Reminder.t) :
  reachable tz user s ->
  r ∈ reminders (page s) ->
  pendingTimer (browser s) (Reminder.timeoutId r) = true ->
  let fired := step tz user (TimerFires (Reminder.timeoutId r)) s in
  if due (browser s) (Reminder.timeoutId r)
  then
    alerts (browser fired)
      = (alerts (browser s) ++ [notificationMessage (Reminder.name r)])%list /\
    spoken (browser fired)
      = (spoken (browser s) ++ [notificationMessage (Reminder.name r)])%list /\
    page fired = page s /\
    pendingTimer (browser fired) (Reminder.timeoutId r) = false /\
    (forall es : list Event,
       step tz user (TimerFires (Reminder.timeoutId r)) (run tz user es fired)
       = run tz user es fired)
  else fired = s.
Proof.
  intros Hreach Hin Hpending fired.
  destruct (reachable_announcesOwnName tz user s Hreach r Hin) as (t & Ht & Hcb).
  unfold pendingTimer in Hpending. rewrite Ht in Hpending.
  destruct (status t) eqn:Hst; try discriminate Hpending.
  unfold due. rewrite Ht.
  assert (Hfired : fired =
    if fireAt t <=? clock (browser s)
    then {| page := page s;
            browser := snd (runCallback (callback t)
                         (withTimers (<[Reminder.timeoutId r := fire t]> (timers (browser s)))
                                     (browser s))) |}
    else s).
  { subst fired. cbn [step]. unfold fireTimer. rewrite Ht, Hst.
    destruct (fireAt t <=? clock (browser s)); [reflexivity | now destruct s]. }
  destruct (fireAt t <=? clock (browser s)); [|exact Hfired].
  assert (Hlookup : timers (browser fired) !! Reminder.timeoutId r = Some (fire t)).
  { rewrite Hfired. cbn [browser]. rewrite timers_runCallback.
    unfold withTimers; cbn [timers].
    apply list_lookup_insert_eq. now apply lookup_lt_Some in Ht. }
  split; [now rewrite Hfired, Hcb|]. split; [now rewrite Hfired, Hcb|].
  split; [now rewrite Hfired|]. split.
  - unfold pendingTimer. now rewrite Hlookup.
  - intros es. apply run_fire_settled. exists (fire t). split; [exact Hlookup|].
    cbn. discriminate.
Qed.

(** * The further properties at work *)

Lemma aspirinAdded_reachable : reachable istOffset "asha" aspirinAdded.
Proof.
  unfold aspirinAdded, aspirinTyped.
  change (run istOffset "asha" [ChangeMedName "Aspirin"; ChangeMedTime "09:00"]
            (mounted istOffset "asha" (freshBrowser eightOClock)))
    with (step istOffset "asha" (ChangeMedTime "09:00")
            (step istOffset "asha" (ChangeMedName "Aspirin")
               (mounted istOffset "asha" (freshBrowser eightOClock)))).
  do 3 apply reachable_step. apply reachable_mounted.
Qed.

Lemma aspirinDue_reachable : reachable istOffset "asha" aspirinDue.
Proof.
  unfold aspirinDue.
  change (run istOffset "asha" [Tick 3600000] aspirinAdded)
    with (step istOffset "asha" (Tick 3600000) aspirinAdded).
  apply reachable_step. apply aspirinAdded_reachable.
Qed.


Lemma mount_over_unreadable_storage_resets_it_witness :
  page (mounted istOffset "asha" (freshBrowser eightOClock)) = initialPage /\
  timers (browser (mounted istOffset "asha" (freshBrowser eightOClock))) = [].
Proof.
  assert (Hbad : unreadable (localStorage (freshBrowser eightOClock) !! storageKey "asha")
                 = true) by (vm_compute; reflexivity).
  rewrite (mount_over_unreadable_storage_resets_it istOffset "asha"
             (freshBrowser eightOClock) Hbad).
  split; reflexivity.
Defined.

Lemma mount_over_array_with_bad_item_witness :
  reminders (page (mounted istOffset "asha" damagedSession)) = [] /\
  timers (browser (mounted istOffset "asha" damagedSession))
    = [armedFor istOffset eightOClock (Stored.rest aspirin)].
Proof.
  assert (Hstored :
    localStorage damagedSession !! storageKey "asha"
    = Some (Document (JArr ((Stored.toJSON <$> [Stored.rest aspirin]) ++ JNull :: [])%list)))
    by (vm_compute; reflexivity).
  rewrite (mount_over_array_with_bad_item istOffset "asha" [Stored.rest aspirin] JNull []
             damagedSession Hstored eq_refl).
  split; reflexivity.
Defined.

Lemma deleted_reminder_never_notifies_witness :
  step istOffset "asha" (TimerFires 0)
    (run istOffset "asha" [Tick 3600000]
       (step istOffset "asha" (ClickDelete eightOClock) aspirinAdded))
  = run istOffset "asha" [Tick 3600000]
      (step istOffset "asha" (ClickDelete eightOClock) aspirinAdded).
Proof.
  assert (Hnodup : NoDup (Reminder.id <$> reminders (page aspirinAdded))).
  { change (NoDup [eightOClock]). apply NoDup_singleton. }
  assert (Hin : aspirin ∈ reminders (page aspirinAdded)).
  { change (aspirin ∈ [aspirin]). apply list_elem_of_here. }
  exact (deleted_reminder_never_notifies istOffset "asha" aspirinAdded aspirin
           [Tick 3600000] aspirinAdded_reachable Hnodup Hin).
Defined.

Lemma revisiting_the_page_arms_timers_again_witness :
  tripleOf <$> reminders (page (mounted istOffset "asha" (browser aspirinAdded)))
  = [(eightOClock, "Aspirin", "09:00")] /\
  length (timers (browser (mounted istOffset "asha" (browser aspirinAdded)))) = 2%nat.
Proof.
  assert (Hstored : localStorage (browser aspirinAdded) !! storageKey "asha"
            = Some (Document (JArr (storedObject <$> reminders (page aspirinAdded)))))
    by (vm_compute; reflexivity).
  assert (Hvalid : Forall (fun r => (Reminder.timeoutId r
                                     < length (timers (browser aspirinAdded)))%nat)
                          (reminders (page aspirinAdded))).
  { change (reminders (page aspirinAdded)) with [aspirin].
    apply Forall_cons. split; [|apply Forall_nil_2].
    change (0 < 1)%nat. lia. }
  destruct (revisiting_the_page_arms_timers_again istOffset "asha" aspirinAdded
              Hstored Hvalid) as (Hsame & _ & _ & Hlen & _).
  split; [exact Hsame | exact Hlen].
Defined.

Lemma page_writes_only_its_own_entry_witness :
  storageKey "ravi" <> storageKey "asha" /\ "currentUser" <> storageKey "asha".
Proof.
  assert (Hother : "ravi" <> "asha") by discriminate.
  destruct (page_writes_only_its_own_entry istOffset "asha" "ravi" Hother)
    as (Hk1 & Hk2 & _).
  split; [exact Hk1 | exact Hk2].
Defined.

Lemma removeReminder_cancels_only_the_first_match_witness :
  pendingTimer (browser (step istOffset "asha" (ClickDelete eightOClock) aspirinTwice)) 1
  = pendingTimer (browser aspirinTwice) 1.
Proof.
  assert (Hfind :
    List.find (fun r => Z.eqb (Reminder.id r) (Reminder.id aspirin))
              (reminders (page aspirinTwice)) = Some aspirin)
    by (vm_compute; reflexivity).
  assert (Hin : eveningAspirin ∈ reminders (page aspirinTwice)).
  { change (eveningAspirin ∈ [aspirin; eveningAspirin]).
    apply list_elem_of_further, list_elem_of_here. }
  assert (Hhandle : Reminder.timeoutId eveningAspirin <> Reminder.timeoutId aspirin)
    by discriminate.
  destruct (removeReminder_cancels_only_the_first_match istOffset "asha" aspirinTwice
              aspirin eveningAspirin Hfind Hin eq_refl Hhandle) as (_ & _ & _ & Hkept).
  exact Hkept.
Defined.


Lemma reminders_survive_logout_and_login_witness :
  tripleOf <$>
    reminders (page (mounted istOffset "asha"
      (appBrowser (handleLogin "asha"
         (handleLogout {| currentUser := Some "asha";
                          appBrowser := browser aspirinAdded |})))))
  = [(eightOClock, "Aspirin", "09:00")].
Proof.
  assert (Hstored :
    localStorage (appBrowser {| currentUser := Some "asha";
                                appBrowser := browser aspirinAdded |})
      !! storageKey "asha"
    = Some (Document (JArr (storedObject <$> [aspirin]))))
    by (vm_compute; reflexivity).
  destruct (reminders_survive_logout_and_login istOffset "asha"
              {| currentUser := Some "asha"; appBrowser := browser aspirinAdded |}
              [aspirin] Hstored) as [_ Hsame].
  exact Hsame.
Defined.




Lemma due_reminder_is_announced_once_witness :
  alerts (browser (step istOffset "asha" (TimerFires 0) aspirinDue))
  = ["Time to take your Aspirin!"].
Proof.
  assert (Hin : aspirin ∈ reminders (page aspirinDue)).
  { change (aspirin ∈ [aspirin]). apply list_elem_of_here. }
  assert (Hpending : pendingTimer (browser aspirinDue) (Reminder.timeoutId aspirin) = true)
    by (vm_compute; reflexivity).
  assert (Hdue : due (browser aspirinDue) (Reminder.timeoutId aspirin) = true)
    by (vm_compute; reflexivity).
  pose proof (due_reminder_is_announced_once istOffset "asha" aspirinDue aspirin
                aspirinDue_reachable Hin Hpending) as Hfire.
  cbv zeta in Hfire. rewrite Hdue in Hfire.
  destruct Hfire as (Halerts & _). exact Halerts.
Defined.

(** * Adding and deleting together *)

(** X23: a reminder added when the clock has passed every identifier on
    the page gets an identifier of its own: unique identifiers stay unique. *)
Theorem addReminder_later_keeps_ids_unique (tz : Z) (user : string) (s : State) :
  NoDup (Reminder.id <$> reminders (page s)) ->
  (forall r, r ∈ reminders (page s) -> Reminder.id r < clock (browser s)) ->
  NoDup (Reminder.id <$> reminders (page (step tz user SubmitAddReminder s))).
Proof.
  intros Hnodup Hbelow.
  destruct (negb (JsString.truthy (medName (page s)))
            || negb (JsString.truthy (medTime (page s)))) eqn:Hguard.
  - now rewrite (step_add_rejected tz user s Hguard).
  - apply orb_false_elim in Hguard as [Hname Htime].
    apply negb_false_iff in Hname, Htime.
    rewrite (step_add_run tz user s Hname Htime). cbn [page reminders].
    rewrite fmap_app. apply NoDup_app. split; [exact Hnodup|]. split.
    + intros x Hx Hnew. cbn in Hnew. apply list_elem_of_singleton in Hnew. subst x.
      apply list_elem_of_fmap in Hx as (r & Hr & Hin).
      specialize (Hbelow r Hin). lia.
    + apply NoDup_singleton.
Qed.

Lemma without_app (id : Z) (l1 l2 : list Reminder.t) :
  without id (l1 ++ l2) = (without id l1 ++ without id l2)%list.
Proof. unfold without. apply List.filter_app. Qed.

(** X24: adding a reminder and deleting it again, when no reminder on the
    page carries the clock reading as identifier, brings back the list of
    reminders as it was; the stored document is that list again, the form
    fields are empty, and the one timer added is there, cancelled. *)
Theorem add_then_delete_restores_the_list (tz : Z) (user : string) (s : State) :
  medName (page s) <> "" -> medTime (page s) <> "" ->
  (forall r, r ∈ reminders (page s) -> Reminder.id r <> clock (browser s)) ->
  let s' := step tz user (ClickDelete (clock (browser s)))
              (step tz user SubmitAddReminder s) in
  reminders (page s') = reminders (page s) /\
  medName (page s') = "" /\ medTime (page s') = "" /\
  localStorage (browser s') !! storageKey user
    = Some (Document (JArr (storedObject <$> reminders (page s)))) /\
  exists t : Timer,
    timers (browser s') = (timers (browser s) ++ [t])%list /\
    status t = Cancelled /\ callback t = Notify (medName (page s)).
Proof.
  intros Hname Htime Hfresh s'. subst s'.
  rewrite (step_add_run tz user s (truthy_nonempty _ Hname) (truthy_nonempty _ Htime)).
  cbv zeta. rewrite step_delete_run. cbn [page browser reminders medName medTime].
  assert (Hfind :
    List.find (fun r => Reminder.id r =? clock (browser s))
              (reminders (page s) ++ [newReminderOf (page s) (browser s)])
    = Some (newReminderOf (page s) (browser s))).
  { induction (reminders (page s)) as [|r rs IH]; cbn.
    - now rewrite Z.eqb_refl.
    - destruct (Z.eqb_spec (Reminder.id r) (clock (browser s))) as [Heq|_].
      + exfalso. apply (Hfresh r); [left | exact Heq].
      + apply IH. intros r' Hin. apply Hfresh. now right. }
  assert (Hwithout :
    without (clock (browser s))
            (reminders (page s) ++ [newReminderOf (page s) (browser s)])
    = reminders (page s)).
  { rewrite without_app, (without_absent _ _ Hfresh).
    unfold without; cbn. rewrite Z.eqb_refl. cbn. apply app_nil_r. }
  unfold withStorage, withTimers in *; cbn [timers localStorage clock] in *.
  rewrite Hfind, Hwithout. cbn [timers localStorage newReminderOf Reminder.timeoutId].
  split; [reflexivity|]. split; [reflexivity|]. split; [reflexivity|]. split.
  - rewrite lookup_insert_eq. unfold persisted, JSON_stringify.
    rewrite <- list_fmap_compose. reflexivity.
  - exists (cancel (armed tz (clock (browser s)) (medName (page s)) (medTime (page s)))).
    split; [|split; reflexivity].
    apply list_eq. intros i.
    destruct (decide (i = length (timers (browser s)))) as [->|Hne].
    + rewrite list_lookup_alter_eq.
      rewrite !lookup_app_r by lia. now rewrite Nat.sub_diag.
    + rewrite list_lookup_alter_ne by congruence.
      destruct (decide (i < length (timers (browser s)))%nat) as [Hlt|Hge].
      * now rewrite !lookup_app_l by exact Hlt.
      * rewrite !lookup_app_r by lia.
        destruct (i - length (timers (browser s)))%nat as [|k] eqn:Hk; [lia|].
        reflexivity.
Qed.

Lemma withHandlesFrom_handle_ge (stored : list Stored.t) :
  forall (base : nat) (r : Reminder.t),
    r ∈ withHandlesFrom base stored -> (base <= Reminder.timeoutId r)%nat.
Proof.
  induction stored as [|st stored IH]; intros base r Hin; [inversion Hin|].
  cbn in Hin. apply elem_of_cons in Hin as [-> | Hin]; [cbn; lia|].
  specialize (IH (S base) r Hin). lia.
Qed.

Lemma find_elem (id : Z) (rs : list Reminder.t) (r : Reminder.t) :
  List.find (fun r => Z.eqb (Reminder.id r) id) rs = Some r -> r ∈ rs.
Proof. intros Hfind. apply list_elem_of_In. now apply find_some in Hfind as [Hin _]. Qed.

(** X25: after the page has been left and visited again, deleting a
    reminder cancels only the timer of the latest visit: the timer the
    reminder held before, if it was pending, is still pending and still
    announces the reminder's name, although the reminder is gone from the
    page and from the stored list. *)
Theorem delete_after_revisit_leaves_earlier_timer
    (tz : Z) (user : string) (s : State) (r : Reminder.t) :
  reachable tz user s ->
  r ∈ reminders (page s) ->
  pendingTimer (browser s) (Reminder.timeoutId r) = true ->
  let revisited := mounted tz user (browser s) in
  let deleted := step tz user (ClickDelete (Reminder.id r)) revisited in
  (forall r', r' ∈ reminders (page deleted) -> Reminder.id r' <> Reminder.id r) /\
  exists t : Timer,
    timers (browser deleted) !! Reminder.timeoutId r = Some t /\
    status t = Pending /\
    callback t = Notify (Reminder.name r).
Proof.
  intros Hreach Hin Hpending revisited deleted.
  pose proof (reachable_inSync tz user s Hreach) as Hsync.
  destruct (reachable_handlesValid tz user s Hreach) as [_ Hvalid].
  destruct (reachable_announcesOwnName tz user s Hreach r Hin) as (t & Ht & Hcb).
  rewrite Forall_forall in Hvalid. pose proof (Hvalid r Hin) as Hr.
  unfold inSync, persisted, JSON_stringify in Hsync.
  assert (Hrev : revisited =
    {| page := {| reminders := withHandlesFrom (length (timers (browser s)))
                                 (Stored.rest <$> reminders (page s));
                  medName := ""; medTime := "" |};
       browser := withTimers
                    (timers (browser s)
                       ++ (armedFor tz (clock (browser s))
                             <$> (Stored.rest <$> reminders (page s))))
                    (browser s) |})
    by exact (mounted_persisted tz user _ (browser s) Hsync).
  subst deleted. rewrite step_delete_run, Hrev. cbn [page browser reminders].
  split.
  - intros r' Hr'. now apply without_spec in Hr' as [_ Hne].
  - exists t. unfold withStorage; cbn [timers].
    assert (Hstatus : status t = Pending).
    { unfold pendingTimer in Hpending. rewrite Ht in Hpending.
      destruct (status t); [reflexivity | discriminate | discriminate]. }
    split; [|split; [exact Hstatus | exact Hcb]].
    destruct (List.find _ _) as [r0|] eqn:Hfind.
    + apply find_elem, withHandlesFrom_handle_ge in Hfind.
      unfold withTimers; cbn [timers].
      rewrite list_lookup_alter_ne by lia.
      now rewrite lookup_app_l by exact Hr.
    + unfold withTimers; cbn [timers]. now rewrite lookup_app_l by exact Hr.
Qed.

Lemma addReminder_later_keeps_ids_unique_witness :
  NoDup (Reminder.id <$>
           reminders (page (step istOffset "asha" SubmitAddReminder
              (run istOffset "asha"
                 [Tick 1000; ChangeMedName "Aspirin"; ChangeMedTime "21:00"]
                 aspirinAdded)))).
Proof.
  apply addReminder_later_keeps_ids_unique.
  - change (NoDup [eightOClock]). apply NoDup_singleton.
  - change (forall r, r ∈ [aspirin] -> Reminder.id r < eightOClock + 1000).
    intros r Hin. apply list_elem_of_singleton in Hin. subst r. cbn. lia.
Defined.

Lemma add_then_delete_restores_the_list_witness :
  reminders (page (step istOffset "asha" (ClickDelete (clock (browser aspirinTyped)))
                     (step istOffset "asha" SubmitAddReminder aspirinTyped)))
  = reminders (page aspirinTyped).
Proof.
  assert (Hname : medName (page aspirinTyped) <> "") by (vm_compute; discriminate).
  assert (Htime : medTime (page aspirinTyped) <> "") by (vm_compute; discriminate).
  assert (Hfresh : forall r, r ∈ reminders (page aspirinTyped) ->
                             Reminder.id r <> clock (browser aspirinTyped)).
  { change (forall r, r ∈ @nil Reminder.t -> Reminder.id r <> clock (browser aspirinTyped)).
    intros r Hin. inversion Hin. }
  destruct (add_then_delete_restores_the_list istOffset "asha" aspirinTyped
              Hname Htime Hfresh) as (Hrs & _).
  exact Hrs.
Defined.

Lemma delete_after_revisit_leaves_earlier_timer_witness :
  exists t : Timer,
    timers (browser (step istOffset "asha" (ClickDelete (Reminder.id aspirin))
                       (mounted istOffset "asha" (browser aspirinAdded))))
      !! Reminder.timeoutId aspirin = Some t /\
    status t = Pending /\ callback t = Notify (Reminder.name aspirin).
Proof.
  assert (Hin : aspirin ∈ reminders (page aspirinAdded)).
  { change (aspirin ∈ [aspirin]). apply list_elem_of_here. }
  assert (Hpending : pendingTimer (browser aspirinAdded) (Reminder.timeoutId aspirin) = true)
    by (vm_compute; reflexivity).
  destruct (delete_after_revisit_leaves_earlier_timer istOffset "asha" aspirinAdded aspirin
              aspirinAdded_reachable Hin Hpending) as (_ & Htimer).
  exact Htimer.
Defined.

Lemma list_is_saved_when_the_store_has_room_witness :
  reminders (page (stepIn false istOffset "asha" SubmitAddReminder aspirinTyped))
  = [aspirin] /\
  localStorage (browser (stepIn false istOffset "asha" SubmitAddReminder aspirinTyped))
    !! storageKey "asha"
  = Some (Document (JArr [])).
Proof.
  destruct (list_is_saved_when_the_store_has_room false istOffset "asha" aspirinTyped)
    as [Hadd _].
  destruct (Hadd eq_refl eq_refl) as [Hshown Hentry].
  split; [exact Hshown | exact Hentry].
Defined.
